(** * Legacy Office Converter: shallow embedding of [main.py]

    The service is a thin wrapper around an external converter.  The
    embedding follows the Python source function by function:

    - text and [pathlib] paths ([Path], [suffix], [stem], [/]) as functions
      on [string];
    - exceptions and the file system as a state-and-error monad [M];
    - everything the process cannot control (the external tool, the
      environment variable, the random names, a full disk) as a record
      [World] over which the theorems quantify. *)

From Stdlib Require Import ZArith Ascii String List Lia Bool DecimalString.
From stdpp Require Import gmap strings list fin_maps.

Local Open Scope Z_scope.
Local Open Scope string_scope.
Local Open Scope list_scope.

Set Warnings "-register-all".

(** ** Python [str] operations used by the code *)

Module Str.

(** [s.split(sep)] for a one character separator. *)
Fixpoint split (sep : ascii) (s : string) : list string :=
  match s with
  | EmptyString => [EmptyString]
  | String c s' =>
      if Ascii.eqb c sep then EmptyString :: split sep s'
      else match split sep s' with
           | x :: xs => String c x :: xs
           | [] => [String c EmptyString]
           end
  end.

(** [sep.join(l)]. *)
Fixpoint join (sep : string) (l : list string) : string :=
  match l with
  | [] => EmptyString
  | [x] => x
  | x :: xs => x +:+ sep +:+ join sep xs
  end.

(** [s.rfind(c)]: index of the last occurrence of [c], or [-1]. *)
Fixpoint rfind (c : ascii) (s : string) : Z :=
  match s with
  | EmptyString => -1
  | String a s' =>
      let i := rfind c s' in
      if (0 <=? i)%Z then i + 1 else if Ascii.eqb a c then 0 else -1
  end.

Definition len (s : string) : Z := Z.of_nat (String.length s).

Fixpoint take (n : nat) (s : string) : string :=
  match n, s with
  | S n', String a s' => String a (take n' s')
  | _, _ => EmptyString
  end.

Fixpoint drop (n : nat) (s : string) : string :=
  match n, s with
  | S n', String _ s' => drop n' s'
  | _, _ => s
  end.

(** [s[:i]] and [s[i:]]; the code only slices with [0 < i]. *)
Definition slice_to (s : string) (i : Z) : string := take (Z.to_nat i) s.
Definition slice_from (s : string) (i : Z) : string := drop (Z.to_nat i) s.

(** [s.lower()].  Strings are byte strings here; only the ASCII letters
    change.  No character outside [A-Z] lowers to a letter of a supported
    extension, so membership in the format table is not affected. *)
Definition lower_ascii (c : ascii) : ascii :=
  let n := N_of_ascii c in
  if ((65 <=? n) && (n <=? 90))%N then ascii_of_N (n + 32) else c.

Fixpoint lower (s : string) : string :=
  match s with
  | EmptyString => EmptyString
  | String c s' => String (lower_ascii c) (lower s')
  end.

Definition startswith_slash (s : string) : bool :=
  match s with
  | String c _ => Ascii.eqb c "/"
  | EmptyString => false
  end.

(** [c in s] for a character. *)
Fixpoint contains (c : ascii) (s : string) : bool :=
  match s with
  | EmptyString => false
  | String a s' => Ascii.eqb a c || contains c s'
  end.

End Str.

(** ** [pathlib.PurePosixPath] *)

(** A path is its anchor (absolute or not) and its components.  A leading
    double slash is not told apart from a single one. *)
Record Path := mkPath { anchored : bool; parts : list string }.

Definition keep_part (x : string) : bool :=
  negb (String.eqb x "") && negb (String.eqb x ".").

(** [Path(s)]: split on the separator, drop empty and [.] components. *)
Definition Path_of (s : string) : Path :=
  {| anchored := Str.startswith_slash s;
     parts := List.filter keep_part (Str.split "/" s) |}.

(** [str(p)]. *)
Definition str_of_Path (p : Path) : string :=
  if anchored p then "/" +:+ Str.join "/" (parts p)
  else match parts p with
       | [] => "."
       | _ => Str.join "/" (parts p)
       end.

(** [p.name]: the final component, or the empty string. *)
Definition name (p : Path) : string := List.last (parts p) "".

(** [p.suffix], as [pathlib] computes it from the last dot of the name (a
    leading or a trailing dot gives no suffix). *)
Definition suffix (p : Path) : string :=
  let nm := name p in
  let i := Str.rfind "." nm in
  if ((0 <? i) && (i <? Str.len nm - 1))%Z then Str.slice_from nm i else "".

(** [p.stem]. *)
Definition stem (p : Path) : string :=
  let nm := name p in
  let i := Str.rfind "." nm in
  if ((0 <? i) && (i <? Str.len nm - 1))%Z then Str.slice_to nm i else nm.

(** [p / key]: an anchored [key] replaces [p]. *)
Definition truediv (p : Path) (key : string) : Path :=
  let q := Path_of key in
  if anchored q then q
  else {| anchored := anchored p; parts := parts p ++ parts q |}.

Notation "p // key" := (truediv p key) (at level 40, left associativity).

(** The child of [p] named [nm], as [glob] builds it (no parsing). *)
Definition child (p : Path) (nm : string) : Path :=
  {| anchored := anchored p; parts := parts p ++ [nm] |}.

(** ** The two format tables (ordered, as Python dicts are) *)

Definition FORMAT_MAPPING : list (string * string) :=
  [ (".doc", ".docx"); (".xls", ".xlsx"); (".ppt", ".pptx") ].

Definition LIBREOFFICE_FILTERS : list (string * string) :=
  [ (".docx", "docx"); (".xlsx", "xlsx"); (".pptx", "pptx") ].

(** [d.keys()], [k in d] and [d.get(k)] on an ordered table. *)
Definition keys (d : list (string * string)) : list string := List.map fst d.

Fixpoint dict_get (d : list (string * string)) (k : string) : option string :=
  match d with
  | [] => None
  | (k', v) :: d' => if String.eqb k k' then Some v else dict_get d' k
  end.

Definition dict_in (k : string) (d : list (string * string)) : bool :=
  match dict_get d k with Some _ => true | None => false end.

(** ** Values exchanged with the framework *)

(** JSON bodies and error details: strings, lists and ordered objects. *)
Inductive json :=
| JStr (s : string)
| JList (l : list json)
| JDict (d : list (string * json)).

(** The exceptions the code raises, catches or lets through.  All of them
    derive from [Exception]; the constructor is the class, the string the
    message [str(e)]. *)
Inductive exn :=
| TimeoutExpired (msg : string)
| FileNotFoundError (msg : string)
| IsADirectoryError (msg : string)
| NotADirectoryError (msg : string)
| FileExistsError (msg : string)
| OSError (msg : string)
| KeyError (msg : string)
| HTTPException (status_code : Z) (detail : json)
| Exception (msg : string).

(** [str(z)] for an integer. *)
Definition str_of_Z (z : Z) : string := NilZero.string_of_int (Z.to_int z).

(** [repr(j)]; the strings are quoted as they are. *)
Fixpoint repr_json (j : json) : string :=
  match j with
  | JStr s => "'" +:+ s +:+ "'"
  | JList l => "[" +:+ Str.join ", " (List.map repr_json l) +:+ "]"
  | JDict d =>
      "{" +:+ Str.join ", "
                (List.map (fun kv => match kv with
                                     | (k, v) => "'" +:+ k +:+ "': " +:+ repr_json v
                                     end) d) +:+ "}"
  end.

(** [str(e)]: the message, and for the framework's [HTTPException] the
    status code and the detail. *)
Definition str_of_exn (e : exn) : string :=
  match e with
  | TimeoutExpired m | FileNotFoundError m | IsADirectoryError m
  | NotADirectoryError m | FileExistsError m | OSError m | KeyError m
  | Exception m => m
  | HTTPException status (JStr d) => str_of_Z status +:+ ": " +:+ d
  | HTTPException status d => str_of_Z status +:+ ": " +:+ repr_json d
  end.

Definition is_HTTPException (e : exn) : bool :=
  match e with HTTPException _ _ => true | _ => false end.

(** [isinstance(e, OSError)]. *)
Definition is_OSError (e : exn) : bool :=
  match e with
  | FileNotFoundError _ | IsADirectoryError _ | NotADirectoryError _
  | FileExistsError _ | OSError _ => true
  | _ => false
  end.

(** [subprocess.CompletedProcess]. *)
Record CompletedProcess :=
  { returncode : Z; stdout : string; stderr : string }.

(** [fastapi.UploadFile]: the declared name and the uploaded bytes. *)
Record UploadFile := { filename : string; content : list Byte.byte }.

(** [fastapi.responses.FileResponse] as the handler builds it; its
    [filename] argument, which the framework puts in the attachment
    [Content-Disposition], is [response_filename] here. *)
Record FileResponse :=
  { path : string;
    response_filename : string;
    media_type : string;
    background : option unit }.

(** ** The file system *)

(** A tree of directories and plain files, keyed by entry name. *)
Inductive node :=
| File (data : list Byte.byte)
| Dir (entries : gmap string node).

Fixpoint lookup_node (t : node) (p : list string) {struct p} : option node :=
  match p with
  | [] => Some t
  | c :: p' =>
      match t with
      | Dir m => match m !! c with
                 | Some n => lookup_node n p'
                 | None => None
                 end
      | File _ => None
      end
  end.

(** Rewrite the table of the directory at [p]; [None] when [p] is not a
    directory. *)
Fixpoint update_dir (f : gmap string node -> gmap string node)
    (t : node) (p : list string) {struct p} : option node :=
  match t with
  | File _ => None
  | Dir m =>
      match p with
      | [] => Some (Dir (f m))
      | c :: p' =>
          match m !! c with
          | Some n =>
              match update_dir f n p' with
              | Some n' => Some (Dir (<[c := n']> m))
              | None => None
              end
          | None => None
          end
      end
  end.

(** A path split into its parent and its last component. *)
Fixpoint split_last (p : list string) : option (list string * string) :=
  match p with
  | [] => None
  | [c] => Some ([], c)
  | c :: p' =>
      match split_last p' with
      | Some (d, nm) => Some (c :: d, nm)
      | None => None
      end
  end.

(** Two paths part ways: at some depth, before either ends, their
    components differ. *)
Fixpoint diverges (p q : list string) : bool :=
  match p, q with
  | x :: p', y :: q' => if String.eqb x y then diverges p' q' else true
  | _, _ => false
  end.

Definition is_file (n : node) : bool :=
  match n with File _ => true | Dir _ => false end.

(** The directory at [ap] exists and holds plain files only. *)
Definition holds_only_files (t : node) (ap : list string) : bool :=
  match lookup_node t ap with
  | Some (Dir m) => forallb (fun e => is_file (snd e)) (map_to_list m)
  | _ => false
  end.

(** The directory at [ap] exists and holds at least one directory. *)
Definition holds_a_directory (t : node) (ap : list string) : bool :=
  match lookup_node t ap with
  | Some (Dir m) => existsb (fun e => negb (is_file (snd e))) (map_to_list m)
  | _ => false
  end.

(** ** The world outside the process *)

Inductive run_result :=
| Completed (c : CompletedProcess)
| RunRaised (e : exn).

(** How a run of the external program ended: with exit code zero or not. *)
Definition exited_zero (r : run_result) : bool :=
  match r with
  | Completed c => (returncode c =? 0)%Z
  | RunRaised _ => false
  end.

Record World := {
  (** the environment variable [LIBREOFFICE_BINARY], when set *)
  env_LIBREOFFICE_BINARY : option string;
  (** the external program: from the command line, the timeout and the
      file system to how [subprocess.run] ends and what is on disk then *)
  tool : list string -> Z -> node -> run_result * node;
  (** [str(uuid.uuid4())] *)
  uuid4 : string;
  (** [tempfile.gettempdir()], as components from the root *)
  tempdir : list string;
  (** the random names [tempfile] tries in turn *)
  candidate_names : list string;
  (** the working directory, to resolve relative paths *)
  cwd : list string;
  (** an I/O error the system reports while writing file data, if any *)
  write_fault : option string
}.

(** ** The state-and-exception monad *)

Record State := { fs : node; console : list string }.

Definition set_fs (t : node) (s : State) : State :=
  {| fs := t; console := console s |}.

Inductive Result (A : Type) :=
| Ok (a : A)
| Raise (e : exn).
Arguments Ok {A} a.
Arguments Raise {A} e.

Definition M (A : Type) : Type := State -> Result A * State.

Definition ret {A} (a : A) : M A := fun s => (Ok a, s).

Definition bind {A B} (c : M A) (k : A -> M B) : M B :=
  fun s => match c s with
           | (Ok a, s') => k a s'
           | (Raise e, s') => (Raise e, s')
           end.

Definition raise {A} (e : exn) : M A := fun s => (Raise e, s).

Notation "'do' x <- c ; k" := (bind c (fun x => k))
  (at level 10, x name, c at level 100, k at level 200).
Notation "c ;; k" := (bind c (fun _ => k))
  (at level 100, k at level 200, right associativity).

(** [try: body except ...]: [handler e] is the clause that matches [e], if
    any.  What a clause raises is not offered to the other clauses. *)
Definition try_except {A} (body : M A) (handler : exn -> option (M A)) : M A :=
  fun s => match body s with
           | (Ok a, s') => (Ok a, s')
           | (Raise e, s') =>
               match handler e with
               | Some k => k s'
               | None => (Raise e, s')
               end
           end.

(** [for x in l: body x]. *)
Fixpoint for_each {A} (l : list A) (body : A -> M unit) : M unit :=
  match l with
  | [] => ret tt
  | x :: l' => body x ;; for_each l' body
  end.

Definition print (line : string) : M unit :=
  fun s => (Ok tt, {| fs := fs s; console := console s ++ [line] |}).

(** ** System calls *)

(** The text of an [OSError] about a path, as the interpreter words it. *)
Definition os_error_text (errno what : string) (p : Path) : string :=
  "[Errno " +:+ errno +:+ "] " +:+ what +:+ ": '" +:+ str_of_Path p +:+ "'".

Definition ENOENT (p : Path) : exn :=
  FileNotFoundError (os_error_text "2" "No such file or directory" p).
Definition EISDIR (p : Path) : exn :=
  IsADirectoryError (os_error_text "21" "Is a directory" p).
Definition ENOTDIR (p : Path) : exn :=
  NotADirectoryError (os_error_text "20" "Not a directory" p).
Definition ENOTEMPTY (p : Path) : exn :=
  OSError (os_error_text "39" "Directory not empty" p).
Definition EBUSY (p : Path) : exn :=
  OSError (os_error_text "16" "Device or resource busy" p).

Section Syscalls.
Variable w : World.

Definition resolve (p : Path) : list string :=
  (if anchored p then [] else cwd w) ++ parts p.

(** [p.exists()] *)
Definition exists_ (p : Path) : M bool :=
  fun s => match lookup_node (fs s) (resolve p) with
           | Some _ => (Ok true, s)
           | None => (Ok false, s)
           end.

(** [p.glob("*")]: the entries of a directory, nothing otherwise. *)
Definition glob_star (p : Path) : M (list Path) :=
  fun s => match lookup_node (fs s) (resolve p) with
           | Some (Dir m) => (Ok (List.map (fun e => child p (fst e)) (map_to_list m)), s)
           | _ => (Ok [], s)
           end.

Definition remove_entry (t : node) (ap : list string) : option node :=
  match split_last ap with
  | Some (d, nm) => update_dir (delete nm) t d
  | None => None
  end.

(** [p.unlink()]: removes a plain file only. *)
Definition unlink (p : Path) : M unit :=
  fun s => match lookup_node (fs s) (resolve p) with
           | Some (File _) =>
               match remove_entry (fs s) (resolve p) with
               | Some t' => (Ok tt, set_fs t' s)
               | None => (Raise (EBUSY p), s)
               end
           | Some (Dir _) => (Raise (EISDIR p), s)
           | None => (Raise (ENOENT p), s)
           end.

(** [p.rmdir()]: removes an empty directory only. *)
Definition rmdir (p : Path) : M unit :=
  fun s => match lookup_node (fs s) (resolve p) with
           | Some (Dir m) =>
               match map_to_list m with
               | [] =>
                   match remove_entry (fs s) (resolve p) with
                   | Some t' => (Ok tt, set_fs t' s)
                   | None => (Raise (EBUSY p), s)
                   end
               | _ :: _ => (Raise (ENOTEMPTY p), s)
               end
           | Some (File _) => (Raise (ENOTDIR p), s)
           | None => (Raise (ENOENT p), s)
           end.

(** [p.write_bytes(data)]: opens for writing (creating or truncating the
    file), then writes. *)
Definition write_bytes (p : Path) (data : list Byte.byte) : M unit :=
  fun s => match split_last (resolve p) with
           | None => (Raise (EISDIR p), s)
           | Some (d, nm) =>
               match lookup_node (fs s) d with
               | Some (Dir m) =>
                   match m !! nm with
                   | Some (Dir _) => (Raise (EISDIR p), s)
                   | _ =>
                       match write_fault w with
                       | Some msg =>
                           match update_dir (<[nm := File []]>) (fs s) d with
                           | Some t' => (Raise (OSError msg), set_fs t' s)
                           | None => (Raise (OSError msg), s)
                           end
                       | None =>
                           match update_dir (<[nm := File data]>) (fs s) d with
                           | Some t' => (Ok tt, set_fs t' s)
                           | None => (Raise (EBUSY p), s)
                           end
                       end
                   end
               | Some (File _) => (Raise (ENOTDIR p), s)
               | None => (Raise (ENOENT p), s)
               end
           end.

(** [Path(tempfile.mkdtemp())]: a new, empty directory under the temporary
    root, named by the first candidate that is free. *)
Definition mkdtemp : M Path :=
  fun s => match lookup_node (fs s) (tempdir w) with
           | Some (Dir m) =>
               match List.find (fun nm => match m !! ("tmp" +:+ nm) with
                                          | None => true
                                          | Some _ => false
                                          end) (candidate_names w) with
               | Some nm =>
                   match update_dir (<["tmp" +:+ nm := Dir ∅]>) (fs s) (tempdir w) with
                   | Some t' =>
                       (Ok {| anchored := true; parts := tempdir w ++ ["tmp" +:+ nm] |},
                        set_fs t' s)
                   | None => (Raise (EBUSY (mkPath true (tempdir w))), s)
                   end
               | None =>
                   (Raise (FileExistsError
                            "[Errno 17] No usable temporary directory name found"), s)
               end
           | Some (File _) => (Raise (ENOTDIR (mkPath true (tempdir w))), s)
           | None => (Raise (ENOENT (mkPath true (tempdir w))), s)
           end.

(** [subprocess.run(cmd, capture_output=True, timeout=t)] *)
Definition subprocess_run (cmd : list string) (timeout : Z) : M CompletedProcess :=
  fun s => match tool w cmd timeout (fs s) with
           | (Completed c, t') => (Ok c, set_fs t' s)
           | (RunRaised e, t') => (Raise e, set_fs t' s)
           end.

End Syscalls.

(** ** main.py *)

Section Main.
Variable w : World.

(** [LIBREOFFICE_BINARY = os.getenv("LIBREOFFICE_BINARY", "soffice")] *)
Definition LIBREOFFICE_BINARY : string :=
  match env_LIBREOFFICE_BINARY w with
  | Some b => b
  | None => "soffice"
  end.

(** [d[k]], raising [KeyError] (whose text is the quoted key). *)
Definition getitem (d : list (string * string)) (k : string) : M string :=
  match dict_get d k with
  | Some v => ret v
  | None => raise (KeyError ("'" +:+ k +:+ "'"))
  end.

Definition is_libreoffice_available : M bool :=
  try_except
    (do result <- subprocess_run w [LIBREOFFICE_BINARY; "--help"] 5;
     ret (returncode result =? 0)%Z)
    (fun _ =>
       Some (print "<class 'Exception'> LibreOffice not available or not working" ;;
             ret false)).

Definition convert_command (input_path output_dir : Path) (output_format : string)
  : list string :=
  [ LIBREOFFICE_BINARY; "--headless"; "--convert-to"; output_format;
    "--outdir"; str_of_Path output_dir; str_of_Path input_path ].

Definition convert_with_libreoffice
    (input_path output_dir : Path) (output_format : string) : M (option Path) :=
  try_except
    (let cmd := convert_command input_path output_dir output_format in
     do result <- subprocess_run w cmd 60;
     if negb (returncode result =? 0)%Z then
       print ("LibreOffice conversion failed: " +:+ stderr result) ;;
       ret None
     else
       let expected_name := stem input_path +:+ "." +:+ output_format in
       let output_path := output_dir // expected_name in
       do found <- exists_ w output_path;
       if found then ret (Some output_path) else ret None)
    (fun e =>
       match e with
       | TimeoutExpired _ =>
           Some (print "LibreOffice conversion timed out" ;; ret None)
       | _ =>
           Some (print ("Error during conversion: " +:+ str_of_exn e) ;; ret None)
       end).

(** [GET /] *)
Definition root : M json :=
  do libreoffice_ok <- is_libreoffice_available;
  ret (JDict
         [ ("status", JStr (if libreoffice_ok then "healthy" else "unhealthy"));
           ("service", JStr "Legacy Office Converter");
           ("supported_formats", JList (List.map JStr (keys FORMAT_MAPPING))) ]).

(** [GET /health] *)
Definition health : M json :=
  do libreoffice_ok <- is_libreoffice_available;
  if negb libreoffice_ok then
    raise (HTTPException 503
             (JDict [ ("status", JStr "unhealthy");
                      ("reason", JStr "LibreOffice binary not responding") ]))
  else ret (JDict [ ("status", JStr "healthy") ]).

Definition unsupported_detail : json :=
  JStr ("Unsupported file format. Supported formats: "
        +:+ Str.join ", " (keys FORMAT_MAPPING)).

Definition conversion_failed_detail : json :=
  JStr "Conversion failed. Please check if the file is valid.".

(** The two [# Clean up temp directory] blocks. *)
Definition cleanup (temp_dir : Path) : M unit :=
  do fs_ <- glob_star w temp_dir;
  for_each fs_ (unlink w) ;;
  rmdir w temp_dir.

(** The body of the [try] of [convert_file].  The converter is looked up
    by name when called, so it is a parameter here. *)
Definition convert_body
    (converter : Path -> Path -> string -> M (option Path))
    (file : UploadFile) (file_ext output_ext output_format : string)
    (temp_dir : Path) : M FileResponse :=
  let unique_id := uuid4 w in
  let input_filename := unique_id +:+ file_ext in
  let input_path := temp_dir // input_filename in
  let content_ := content file in
  write_bytes w input_path content_ ;;
  do output_path <- converter input_path temp_dir output_format;
  match output_path with
  | None => raise (HTTPException 500 conversion_failed_detail)
  | Some op =>
      do found <- exists_ w op;
      if negb found then
        raise (HTTPException 500 conversion_failed_detail)
      else
        let original_stem := stem (Path_of (filename file)) in
        let output_filename := original_stem +:+ output_ext in
        ret {| path := str_of_Path op;
               response_filename := output_filename;
               media_type := "application/octet-stream";
               background := None |}
  end.

(** The two [except] clauses of [convert_file]. *)
Definition convert_handlers (temp_dir : Path) (e : exn) : option (M FileResponse) :=
  match e with
  | HTTPException _ _ =>
      Some (cleanup temp_dir ;; raise e)
  | _ =>
      Some (cleanup temp_dir ;;
            raise (HTTPException 500 (JStr ("An error occurred: " +:+ str_of_exn e))))
  end.

(** [POST /convert] with the converter it calls as a parameter. *)
Definition convert_file_with
    (converter : Path -> Path -> string -> M (option Path))
    (file : UploadFile) : M FileResponse :=
  let file_ext := Str.lower (suffix (Path_of (filename file))) in
  if negb (dict_in file_ext FORMAT_MAPPING) then
    raise (HTTPException 400 unsupported_detail)
  else
    do output_ext <- getitem FORMAT_MAPPING file_ext;
    do output_format <- getitem LIBREOFFICE_FILTERS output_ext;
    do temp_dir <- mkdtemp w;
    try_except
      (convert_body converter file file_ext output_ext output_format temp_dir)
      (convert_handlers temp_dir).

(** [POST /convert] *)
Definition convert_file (file : UploadFile) : M FileResponse :=
  convert_file_with convert_with_libreoffice file.

End Main.

(** What [convert_file] raises after a teardown that went through, when the
    body of its [try] raised [e]. *)
Definition reported (e : exn) : exn :=
  if is_HTTPException e then e
  else HTTPException 500 (JStr ("An error occurred: " +:+ str_of_exn e)).

(** ** Sample worlds, used to run the code on concrete requests *)

Module Samples.

(** A disk with an empty [/tmp]. *)
Definition disk : node := Dir {[ "tmp" := Dir ∅ ]}.

Definition start : State := {| fs := disk; console := [] |}.

Definition exit_with (rc : Z) (err : string) : run_result :=
  Completed {| returncode := rc; stdout := ""; stderr := err |}.

(** A converter that works: it writes [<outdir>/<stem>.<format>]. *)
Definition converts (cmd : list string) (timeout : Z) (t : node) : run_result * node :=
  match cmd with
  | [_; _; _; fmt; _; outdir; input] =>
      let out := Path_of outdir // (stem (Path_of input) +:+ "." +:+ fmt) in
      match split_last (parts out) with
      | Some (d, nm) =>
          match update_dir (<[nm := File [Byte.x50; Byte.x4b]]>) t d with
          | Some t' => (exit_with 0 "", t')
          | None => (exit_with 1 "Error: no such directory", t)
          end
      | None => (exit_with 1 "Error: no output name", t)
      end
  | _ => (exit_with 0 "", t)
  end.

(** A converter that rejects the document and leaves the disk alone. *)
Definition rejects (cmd : list string) (timeout : Z) (t : node) : run_result * node :=
  (exit_with 1 "Error: source file could not be loaded", t).

(** A converter that leaves a directory behind in the output directory
    and then fails. *)
Definition litters (cmd : list string) (timeout : Z) (t : node) : run_result * node :=
  match cmd with
  | [_; _; _; _; _; outdir; _] =>
      match update_dir (<["lu8842.tmp" := Dir ∅]>) t (parts (Path_of outdir)) with
      | Some t' => (exit_with 1 "Error: source file could not be loaded", t')
      | None => (exit_with 1 "Error: no such directory", t)
      end
  | _ => (exit_with 0 "", t)
  end.

(** A converter that claims success and writes nothing. *)
Definition idles (cmd : list string) (timeout : Z) (t : node) : run_result * node :=
  (exit_with 0 "", t).

(** A converter that removes the output directory and fails. *)
Definition wipes (cmd : list string) (timeout : Z) (t : node) : run_result * node :=
  match cmd with
  | [_; _; _; _; _; outdir; _] =>
      match remove_entry t (parts (Path_of outdir)) with
      | Some t' => (exit_with 1 "Error: source file could not be loaded", t')
      | None => (exit_with 1 "Error: no such directory", t)
      end
  | _ => (exit_with 0 "", t)
  end.

(** No such binary. *)
Definition absent (cmd : list string) (timeout : Z) (t : node) : run_result * node :=
  (RunRaised (FileNotFoundError "[Errno 2] No such file or directory: 'soffice'"), t).

(** A converter that does not finish in time. *)
Definition hangs (cmd : list string) (timeout : Z) (t : node) : run_result * node :=
  (RunRaised (TimeoutExpired "Command timed out"), t).

Definition world (program : list string -> Z -> node -> run_result * node) : World :=
  {| env_LIBREOFFICE_BINARY := None;
     tool := program;
     uuid4 := "6f1c2a9e-0b7d-4e55-9c3a-2d8e4f5a6b7c";
     tempdir := ["tmp"];
     candidate_names := ["k3v_9qzt"; "ab12cd34"];
     cwd := [];
     write_fault := None |}.

Definition disk_full (w : World) : World :=
  {| env_LIBREOFFICE_BINARY := env_LIBREOFFICE_BINARY w;
     tool := tool w;
     uuid4 := uuid4 w;
     tempdir := tempdir w;
     candidate_names := candidate_names w;
     cwd := cwd w;
     write_fault := Some "[Errno 28] No space left on device" |}.

Definition upload (nm : string) : UploadFile :=
  {| filename := nm; content := [Byte.xd0; Byte.xcf; Byte.x11; Byte.xe0] |}.

Definition workspace : list string := ["tmp"; "tmpk3v_9qzt"].

(** A stand-in for the invoker that returns a fixed result, as the tests
    of the repository patch it in. *)
Definition stub (result : option Path) : Path -> Path -> string -> M (option Path) :=
  fun _ _ _ => ret result.

(** A disk on which a converted file waits in another directory. *)
Definition disk_with_output : node :=
  Dir {[ "tmp" := Dir {[ "out" := Dir {[ "test.docx" := File [Byte.x50; Byte.x4b] ]} ]} ]}.

End Samples.

Ltac unfold_monad :=
  unfold bind, ret, raise, try_except, print, subprocess_run, exists_ in *.

(** * Properties *)

(** ** [pathlib] on sample names *)

Example suffix_test_doc : suffix (Path_of "test.doc") = ".doc".
Proof. reflexivity. Qed.

Example suffix_upper : Str.lower (suffix (Path_of "TEST.DOC")) = ".doc".
Proof. reflexivity. Qed.

Example suffix_none : suffix (Path_of "document") = "".
Proof. reflexivity. Qed.

Example suffix_dotfile : suffix (Path_of ".doc") = "".
Proof. reflexivity. Qed.

Example suffix_trailing_dot : suffix (Path_of "report.") = "".
Proof. reflexivity. Qed.

Example stem_archive : stem (Path_of "dir/archive.tar.doc") = "archive.tar".
Proof. reflexivity. Qed.

Example truediv_example :
  str_of_Path (Path_of "/tmp/tmpab12cd34" // "a./b/./c") = "/tmp/tmpab12cd34/a./b/c".
Proof. reflexivity. Qed.

(** ** Facts about the file-system tree *)

Lemma lookup_node_app (t : node) (p q : list string) :
  lookup_node t (p ++ q) =
  match lookup_node t p with
  | Some n => lookup_node n q
  | None => None
  end.
Proof.
  revert t. induction p as [|c p IH]; intros t; simpl; [done|].
  destruct t as [d|m]; [done|].
  destruct (m !! c) as [n|]; [apply IH|done].
Qed.

Lemma lookup_node_under_missing (t : node) (p q : list string) :
  lookup_node t p = None -> lookup_node t (p ++ q) = None.
Proof. intros H. by rewrite lookup_node_app, H. Qed.

Lemma lookup_node_snoc (t : node) (d : list string) (nm : string) (n : node) :
  lookup_node t (d ++ [nm]) = Some n ->
  exists m, lookup_node t d = Some (Dir m) /\ m !! nm = Some n.
Proof.
  rewrite lookup_node_app. destruct (lookup_node t d) as [[x|m]|]; simpl; try done.
  destruct (m !! nm) as [n'|] eqn:E; [|done]. intros [= ->]. eauto.
Qed.

Lemma split_last_snoc (d : list string) (nm : string) :
  split_last (d ++ [nm]) = Some (d, nm).
Proof.
  induction d as [|c d IH]; simpl; [done|].
  rewrite IH. destruct (d ++ [nm]) eqn:E; [by destruct d|done].
Qed.

Lemma split_last_Some (p d : list string) (nm : string) :
  split_last p = Some (d, nm) -> p = d ++ [nm].
Proof.
  revert d. induction p as [|c p IH]; intros d; simpl; [done|].
  destruct p as [|c' p'].
  - by intros [= <- <-].
  - destruct (split_last (c' :: p')) as [[d' nm']|]; [|done].
    intros [= <- <-]. simpl. f_equal. by apply IH.
Qed.

Lemma split_last_None (p : list string) : split_last p = None -> p = [].
Proof.
  destruct p as [|c p] using rev_ind; [done|]. by rewrite split_last_snoc.
Qed.

Lemma update_dir_lookup (f : gmap string node -> gmap string node)
    (t t' : node) (p : list string) :
  update_dir f t p = Some t' ->
  exists m, lookup_node t p = Some (Dir m) /\ lookup_node t' p = Some (Dir (f m)).
Proof.
  revert t t'. induction p as [|c p IH]; intros [x|m] t'; simpl; try done.
  - intros [= <-]. eauto.
  - destruct (m !! c) as [n|] eqn:E; [|done].
    destruct (update_dir f n p) as [n'|] eqn:U; [|done].
    intros [= <-]. destruct (IH _ _ U) as (m0 & L & L').
    exists m0. split; [done|]. by rewrite lookup_insert_eq.
Qed.

Lemma update_dir_is_Some (f : gmap string node -> gmap string node)
    (t : node) (p : list string) (m : gmap string node) :
  lookup_node t p = Some (Dir m) -> exists t', update_dir f t p = Some t'.
Proof.
  revert t. induction p as [|c p IH]; intros [x|m0]; simpl; try done.
  - eauto.
  - destruct (m0 !! c) as [n|] eqn:E; [|done]. intros L.
    destruct (IH _ L) as [n' ->]. eauto.
Qed.

Lemma remove_entry_gone (t t' : node) (ap q : list string) :
  remove_entry t ap = Some t' -> lookup_node t' (ap ++ q) = None.
Proof.
  unfold remove_entry. destruct (split_last ap) as [[d nm]|] eqn:E; [|done].
  apply split_last_Some in E as ->. intros U.
  apply update_dir_lookup in U as (m & _ & L).
  apply lookup_node_under_missing. rewrite lookup_node_app, L. simpl.
  by rewrite lookup_delete_eq.
Qed.

(** ** Facts about strings and paths *)

Lemma append_cons (a : ascii) (s t : string) :
  String a s +:+ t = String a (s +:+ t).
Proof. reflexivity. Qed.

Lemma append_empty_r (s : string) : s +:+ "" = s.
Proof. induction s as [|a s IH]; [done|]. by rewrite append_cons, IH. Qed.

Lemma str_take_drop (n : nat) (s : string) : Str.take n s +:+ Str.drop n s = s.
Proof.
  revert s. induction n as [|n IH]; intros [|a s]; simpl; try done.
  by rewrite append_cons, IH.
Qed.

(** The name is the stem followed by the suffix. *)
Lemma name_stem_suffix (p : Path) : name p = stem p +:+ suffix p.
Proof.
  unfold stem, suffix, Str.slice_to, Str.slice_from.
  destruct ((0 <? _) && _)%Z.
  - by rewrite str_take_drop.
  - by rewrite append_empty_r.
Qed.

Lemma split_not_nil (c : ascii) (s : string) : Str.split c s <> [].
Proof.
  destruct s as [|a s]; simpl; [done|].
  destruct (Ascii.eqb a c); [done|]. by destruct (Str.split c s).
Qed.

(** No piece of [s.split("/")] starts with the separator. *)
Lemma split_no_leading_slash (s x : string) :
  In x (Str.split "/" s) -> Str.startswith_slash x = false.
Proof.
  revert x. induction s as [|a s IH]; intros x; simpl.
  - by intros [<-|[]].
  - destruct (Ascii.eqb a "/") eqn:E.
    + intros [<-|H]; [done|by apply IH].
    + destruct (Str.split "/" s) as [|y ys] eqn:S.
      * by intros [<-|[]].
      * intros [<-|H]; [done|]. apply IH. by right.
Qed.

Lemma last_In_or_default {A} (l : list A) (d : A) :
  List.last l d = d \/ In (List.last l d) l.
Proof.
  induction l as [|a l IH]; [by left|].
  destruct l as [|b l]; [right; by left|].
  destruct IH as [IH|IH]; [by left|right; by right].
Qed.

Lemma name_Path_of_no_leading_slash (s : string) :
  Str.startswith_slash (name (Path_of s)) = false.
Proof.
  unfold name, Path_of; simpl.
  destruct (last_In_or_default (List.filter keep_part (Str.split "/" s)) "")
    as [->|H]; [done|].
  apply filter_In in H as [H _]. by apply split_no_leading_slash in H.
Qed.

Lemma take_no_leading_slash (n : nat) (s : string) :
  Str.startswith_slash s = false -> Str.startswith_slash (Str.take n s) = false.
Proof. destruct n, s; simpl; done. Qed.

Lemma stem_Path_of_no_leading_slash (s : string) :
  Str.startswith_slash (stem (Path_of s)) = false.
Proof.
  unfold stem, Str.slice_to. pose proof (name_Path_of_no_leading_slash s) as H.
  destruct ((0 <? _) && _)%Z; [by apply take_no_leading_slash|done].
Qed.

(** The expected output name never replaces the output directory: the
    joined path lies under it. *)
Lemma expected_name_under (output_dir : Path) (src fmt : string) :
  let expected_name := stem (Path_of src) +:+ "." +:+ fmt in
  output_dir // expected_name =
  {| anchored := anchored output_dir;
     parts := parts output_dir ++ parts (Path_of expected_name) |}.
Proof.
  intros expected_name. unfold truediv.
  assert (anchored (Path_of expected_name) = false) as ->; [|done].
  unfold expected_name; simpl.
  pose proof (stem_Path_of_no_leading_slash src) as H.
  destruct (stem (Path_of src)); simpl in *; done.
Qed.

(** *** Lower-casing leaves the shape of a path alone *)

Lemma lower_ascii_dot (c : ascii) : Str.lower_ascii c = "."%char <-> c = "."%char.
Proof.
  destruct c as [[] [] [] [] [] [] [] []]; vm_compute; split; congruence.
Qed.

Lemma lower_ascii_slash (c : ascii) : Str.lower_ascii c = "/"%char <-> c = "/"%char.
Proof.
  destruct c as [[] [] [] [] [] [] [] []]; vm_compute; split; congruence.
Qed.

Lemma eqb_lower_ascii_dot (c : ascii) :
  Ascii.eqb (Str.lower_ascii c) "." = Ascii.eqb c ".".
Proof.
  destruct (Ascii.eqb c ".") eqn:E.
  - apply Ascii.eqb_eq in E as ->. done.
  - apply Ascii.eqb_neq. apply Ascii.eqb_neq in E. by rewrite lower_ascii_dot.
Qed.

Lemma eqb_lower_ascii_slash (c : ascii) :
  Ascii.eqb (Str.lower_ascii c) "/" = Ascii.eqb c "/".
Proof.
  destruct (Ascii.eqb c "/") eqn:E.
  - apply Ascii.eqb_eq in E as ->. done.
  - apply Ascii.eqb_neq. apply Ascii.eqb_neq in E. by rewrite lower_ascii_slash.
Qed.

Lemma split_lower (s : string) :
  Str.split "/" (Str.lower s) = List.map Str.lower (Str.split "/" s).
Proof.
  induction s as [|a s IH]; simpl; [done|].
  rewrite eqb_lower_ascii_slash, IH.
  destruct (Ascii.eqb a "/"); [done|]. by destruct (Str.split "/" s).
Qed.

Lemma keep_part_lower (x : string) : keep_part (Str.lower x) = keep_part x.
Proof.
  destruct x as [|a x]; [done|].
  unfold keep_part; simpl. rewrite eqb_lower_ascii_dot. by destruct x.
Qed.

Lemma filter_keep_lower (l : list string) :
  List.filter keep_part (List.map Str.lower l)
  = List.map Str.lower (List.filter keep_part l).
Proof.
  induction l as [|x l IH]; simpl; [done|].
  rewrite keep_part_lower, IH. by destruct (keep_part x).
Qed.

Lemma last_map_lower (l : list string) :
  List.last (List.map Str.lower l) "" = Str.lower (List.last l "").
Proof.
  induction l as [|x l IH]; [done|]. destruct l as [|y l]; [done|].
  exact IH.
Qed.

Lemma name_lower (s : string) :
  name (Path_of (Str.lower s)) = Str.lower (name (Path_of s)).
Proof.
  unfold name, Path_of; simpl.
  by rewrite split_lower, filter_keep_lower, last_map_lower.
Qed.

Lemma rfind_lower (s : string) : Str.rfind "." (Str.lower s) = Str.rfind "." s.
Proof.
  induction s as [|a s IH]; simpl; [done|].
  by rewrite IH, eqb_lower_ascii_dot.
Qed.

Lemma len_lower (s : string) : Str.len (Str.lower s) = Str.len s.
Proof.
  unfold Str.len. f_equal. induction s as [|a s IH]; simpl; [done|]. by rewrite IH.
Qed.

Lemma drop_lower (n : nat) (s : string) :
  Str.drop n (Str.lower s) = Str.lower (Str.drop n s).
Proof. revert s. induction n as [|n IH]; intros [|a s]; simpl; try done. Qed.

(** [Path(s.lower()).suffix == Path(s).suffix.lower()] *)
Lemma suffix_lower (s : string) :
  suffix (Path_of (Str.lower s)) = Str.lower (suffix (Path_of s)).
Proof.
  unfold suffix, Str.slice_from.
  rewrite name_lower, rfind_lower, len_lower, drop_lower.
  by destruct ((0 <? _) && _)%Z.
Qed.

Lemma lower_empty (s : string) : Str.lower s = "" -> s = "".
Proof. by destruct s. Qed.

(** *** The format tables *)

Lemma dict_in_FORMAT_MAPPING (k : string) :
  dict_in k FORMAT_MAPPING = true <-> In k [".doc"; ".xls"; ".ppt"].
Proof.
  unfold dict_in, FORMAT_MAPPING; simpl. split.
  - destruct (String.eqb k ".doc") eqn:E1; [apply String.eqb_eq in E1; auto|].
    destruct (String.eqb k ".xls") eqn:E2; [apply String.eqb_eq in E2; auto|].
    destruct (String.eqb k ".ppt") eqn:E3; [apply String.eqb_eq in E3; auto|done].
  - intros [<-|[<-|[<-|[]]]]; done.
Qed.

Lemma dict_get_FORMAT_MAPPING (k v : string) :
  dict_get FORMAT_MAPPING k = Some v <->
  (k = ".doc" /\ v = ".docx") \/ (k = ".xls" /\ v = ".xlsx") \/ (k = ".ppt" /\ v = ".pptx").
Proof.
  unfold FORMAT_MAPPING; simpl. split.
  - destruct (String.eqb k ".doc") eqn:E1; [apply String.eqb_eq in E1; intros [= <-]; auto|].
    destruct (String.eqb k ".xls") eqn:E2; [apply String.eqb_eq in E2; intros [= <-]; auto|].
    destruct (String.eqb k ".ppt") eqn:E3; [apply String.eqb_eq in E3; intros [= <-]; auto|done].
  - intros [[-> ->]|[[-> ->]|[-> ->]]]; done.
Qed.

Lemma dict_in_get (k : string) (d : list (string * string)) :
  dict_in k d = true -> exists v, dict_get d k = Some v.
Proof. unfold dict_in. destruct (dict_get d k); [eauto|done]. Qed.

(** Every modern extension of the first table has a filter in the second. *)
Lemma filters_cover_mapping (k v : string) :
  dict_get FORMAT_MAPPING k = Some v ->
  exists f, dict_get LIBREOFFICE_FILTERS v = Some f /\ v = "." +:+ f.
Proof.
  rewrite dict_get_FORMAT_MAPPING.
  intros [[-> ->]|[[-> ->]|[-> ->]]]; eexists; split; reflexivity.
Qed.

(** ** The prober, the invoker and the health surface *)

Lemma exited_zero_iff (r : run_result) :
  exited_zero r = true <-> exists c, r = Completed c /\ returncode c = 0.
Proof.
  destruct r as [c|e]; simpl.
  - rewrite Z.eqb_eq. split; [eauto|]. by intros (c' & [= <-] & H).
  - split; [done|]. by intros (c' & [=] & _).
Qed.

Lemma is_libreoffice_available_run (w : World) (s : State) :
  let outcome := tool w [LIBREOFFICE_BINARY w; "--help"] 5 (fs s) in
  exists out,
    is_libreoffice_available w s
    = (Ok (exited_zero (fst outcome)), {| fs := snd outcome; console := out |}).
Proof.
  intros outcome. unfold is_libreoffice_available. unfold_monad.
  fold outcome. destruct outcome as [[c|e] t']; simpl; eauto.
Qed.

(** C6. The prober answers [True] exactly when the external program was
    started, ended before the 5 s timeout and exited with code zero; for
    every other end of the run (no such binary, timeout, other exit code,
    any other exception) it answers [False].  It never raises, and the disk
    it leaves is the disk the external program left: the prober writes no
    file of its own. *)
Theorem prober_true_iff_exit_zero (w : World) (s : State) :
  let outcome := tool w [LIBREOFFICE_BINARY w; "--help"] 5 (fs s) in
  exists b s',
    is_libreoffice_available w s = (Ok b, s')
    /\ (b = true <-> exists c, fst outcome = Completed c /\ returncode c = 0)
    /\ (b = false <->
        (exists e, fst outcome = RunRaised e)
        \/ (exists c, fst outcome = Completed c /\ returncode c <> 0))
    /\ fs s' = snd outcome.
Proof.
  intros outcome.
  destruct (is_libreoffice_available_run w s) as [out E]. fold outcome in E.
  eexists _, _. split; [exact E|]. split; [apply exited_zero_iff|]. split; [|done].
  destruct (fst outcome) as [c|e]; simpl.
  - rewrite Z.eqb_neq. split.
    + intros H. right. eauto.
    + intros [[e [=]]|(c' & [= <-] & H)]. done.
  - split; [eauto|done].
Qed.

Lemma convert_with_libreoffice_run (w : World) (input_path output_dir : Path)
    (fmt : string) (s : State) :
  let outcome := tool w (convert_command w input_path output_dir fmt) 60 (fs s) in
  let expected := output_dir // (stem input_path +:+ "." +:+ fmt) in
  let on_disk := match lookup_node (snd outcome) (resolve w expected) with
                 | Some _ => true
                 | None => false
                 end in
  exists out,
    convert_with_libreoffice w input_path output_dir fmt s
    = (Ok (if exited_zero (fst outcome) && on_disk then Some expected else None),
       {| fs := snd outcome; console := out |}).
Proof.
  intros outcome expected on_disk. unfold convert_with_libreoffice. unfold_monad.
  fold outcome. subst on_disk. destruct outcome as [[c|e] t']; simpl.
  - destruct (returncode c =? 0)%Z; simpl; [|eauto].
    fold expected. destruct (lookup_node t' (resolve w expected)); simpl; eauto.
  - destruct e; simpl; eauto.
Qed.

(** The invoker never raises. *)
Lemma convert_with_libreoffice_returns (w : World) (input_path output_dir : Path)
    (fmt : string) (s : State) :
  exists r s', convert_with_libreoffice w input_path output_dir fmt s = (Ok r, s').
Proof.
  destruct (convert_with_libreoffice_run w input_path output_dir fmt s) as [out E].
  eauto.
Qed.

(** C2. The invoker returns the path [<stem of the input>.<format>] joined
    to the output directory exactly when the external program exits with
    code zero (within the 60 s timeout) and that path exists afterwards; in
    every other case (other exit code, timeout, no output despite exit code
    zero, any exception such as a missing binary) it returns [None].  It
    never raises.  For an input path parsed from text the result lies under
    the output directory. *)
Theorem invoker_result (w : World) (input_path output_dir : Path)
    (fmt : string) (s : State) :
  let outcome := tool w (convert_command w input_path output_dir fmt) 60 (fs s) in
  let expected := output_dir // (stem input_path +:+ "." +:+ fmt) in
  exists r s',
    convert_with_libreoffice w input_path output_dir fmt s = (Ok r, s')
    /\ fs s' = snd outcome
    /\ (r = Some expected <->
        (exists c, fst outcome = Completed c /\ returncode c = 0)
        /\ fst (exists_ w expected s') = Ok true)
    /\ (r = None \/ r = Some expected)
    /\ (forall src, input_path = Path_of src ->
        anchored expected = anchored output_dir
        /\ parts expected
           = parts output_dir ++ parts (Path_of (stem input_path +:+ "." +:+ fmt))).
Proof.
  intros outcome expected.
  destruct (convert_with_libreoffice_run w input_path output_dir fmt s) as [out E].
  fold outcome expected in E. eexists _, _. split; [exact E|]. split; [done|].
  split; [|split].
  - rewrite <- exited_zero_iff. unfold exists_; simpl.
    destruct (exited_zero (fst outcome)); simpl.
    + destruct (lookup_node (snd outcome) (resolve w expected)); simpl;
        split; try done; intros [_ [=]].
    + split; [done|]. by intros [[=] _].
  - destruct (_ && _); auto.
  - intros src ->. subst expected. by rewrite expected_name_under.
Qed.

Lemma invoker_result_witness :
  parts (Path_of "/tmp/out" // (stem (Path_of "/tmp/w/in.doc") +:+ "." +:+ "docx"))
  = ["tmp"; "out"; "in.docx"].
Proof.
  destruct (invoker_result (Samples.world Samples.converts)
              (Path_of "/tmp/w/in.doc") (Path_of "/tmp/out") "docx" Samples.start)
    as (r & s' & _ & _ & _ & _ & H).
  destruct (H "/tmp/w/in.doc" eq_refl) as [_ E]. rewrite E. reflexivity.
Defined.

Example prober_present :
  fst (is_libreoffice_available (Samples.world Samples.idles) Samples.start) = Ok true.
Proof. reflexivity. Qed.

Example prober_absent :
  is_libreoffice_available (Samples.world Samples.absent) Samples.start
  = (Ok false,
     {| fs := Samples.disk;
        console := ["<class 'Exception'> LibreOffice not available or not working"] |}).
Proof. reflexivity. Qed.

Example prober_hangs :
  fst (is_libreoffice_available (Samples.world Samples.hangs) Samples.start) = Ok false.
Proof. reflexivity. Qed.

Example prober_exit_code_one :
  fst (is_libreoffice_available (Samples.world Samples.rejects) Samples.start) = Ok false.
Proof. reflexivity. Qed.

Example invoker_converts :
  fst (convert_with_libreoffice (Samples.world Samples.converts)
         (Path_of "/tmp/report.doc") (Path_of "/tmp") "docx" Samples.start)
  = Ok (Some (Path_of "/tmp/report.docx")).
Proof. vm_compute. reflexivity. Qed.

Example invoker_exit_zero_without_output :
  fst (convert_with_libreoffice (Samples.world Samples.idles)
         (Path_of "/tmp/report.doc") (Path_of "/tmp") "docx" Samples.start)
  = Ok None.
Proof. vm_compute. reflexivity. Qed.

Example invoker_hangs :
  convert_with_libreoffice (Samples.world Samples.hangs)
    (Path_of "/tmp/report.doc") (Path_of "/tmp") "docx" Samples.start
  = (Ok None, {| fs := Samples.disk; console := ["LibreOffice conversion timed out"] |}).
Proof. reflexivity. Qed.

Example invoker_absent :
  convert_with_libreoffice (Samples.world Samples.absent)
    (Path_of "/tmp/report.doc") (Path_of "/tmp") "docx" Samples.start
  = (Ok None,
     {| fs := Samples.disk;
        console := ["Error during conversion: [Errno 2] No such file or directory: 'soffice'"] |}).
Proof. reflexivity. Qed.

(** C7. [GET /health] returns the body [{"status": "healthy"}] (the
    framework's 200) exactly when the prober answers [True], and raises the
    503 error with its structured detail exactly when it answers [False];
    [GET /] always returns a body, never an error, and its
    [supported_formats] field is exactly [.doc], [.xls], [.ppt]. *)
Theorem health_and_root (w : World) (s : State) :
  exists b s',
    is_libreoffice_available w s = (Ok b, s')
    /\ health w s
       = (if b then Ok (JDict [("status", JStr "healthy")])
          else Raise (HTTPException 503
                        (JDict [("status", JStr "unhealthy");
                                ("reason", JStr "LibreOffice binary not responding")])),
          s')
    /\ root w s
       = (Ok (JDict [("status", JStr (if b then "healthy" else "unhealthy"));
                     ("service", JStr "Legacy Office Converter");
                     ("supported_formats",
                      JList [JStr ".doc"; JStr ".xls"; JStr ".ppt"])]),
          s').
Proof.
  destruct (is_libreoffice_available_run w s) as [out E].
  eexists _, _. split; [exact E|].
  unfold health, root, bind. rewrite E.
  split; [|done]. by destruct (exited_zero _).
Qed.

(** ** System calls: what they raise and what they leave *)

Lemma resolve_child (w : World) (p : Path) (k : string) :
  resolve w (child p k) = resolve w p ++ [k].
Proof. unfold resolve, child; simpl. by rewrite app_assoc. Qed.

Lemma unlink_inv (w : World) (p : Path) (s s' : State) (r : Result unit) :
  unlink w p s = (r, s') ->
  console s' = console s
  /\ match r with
     | Ok _ => exists t', s' = set_fs t' s /\ remove_entry (fs s) (resolve w p) = Some t'
     | Raise e => is_HTTPException e = false /\ s' = s
     end.
Proof.
  unfold unlink.
  destruct (lookup_node (fs s) (resolve w p)) as [[d|m]|]; try (intros [= <- <-]; done).
  destruct (remove_entry (fs s) (resolve w p)) as [t'|] eqn:E; intros [= <- <-]; eauto.
Qed.

Lemma rmdir_inv (w : World) (p : Path) (s s' : State) (r : Result unit) :
  rmdir w p s = (r, s') ->
  console s' = console s
  /\ match r with
     | Ok _ => exists t', s' = set_fs t' s /\ remove_entry (fs s) (resolve w p) = Some t'
     | Raise e => is_HTTPException e = false /\ s' = s
     end.
Proof.
  unfold rmdir.
  destruct (lookup_node (fs s) (resolve w p)) as [[d|m]|]; try (intros [= <- <-]; done).
  destruct (map_to_list m); [|intros [= <- <-]; done].
  destruct (remove_entry (fs s) (resolve w p)) as [t'|] eqn:E; intros [= <- <-]; eauto.
Qed.

Lemma write_bytes_inv (w : World) (p : Path) (data : list Byte.byte)
    (s s' : State) (r : Result unit) :
  write_bytes w p data s = (r, s') ->
  console s' = console s
  /\ match r with Ok _ => True | Raise e => is_HTTPException e = false end.
Proof.
  unfold write_bytes.
  destruct (split_last (resolve w p)) as [[d nm]|]; [|intros [= <- <-]; done].
  destruct (lookup_node (fs s) d) as [[x|m]|]; try (intros [= <- <-]; done).
  destruct (m !! nm) as [[x|m']|]; try (intros [= <- <-]; done);
    destruct (write_fault w);
    destruct (update_dir _ (fs s) d); intros [= <- <-]; done.
Qed.

Lemma mkdtemp_inv (w : World) (s s' : State) (r : Result Path) :
  mkdtemp w s = (r, s') ->
  console s' = console s
  /\ match r with
     | Ok td => exists nm, td = {| anchored := true; parts := tempdir w ++ [nm] |}
                           /\ lookup_node (fs s') (resolve w td) = Some (Dir ∅)
     | Raise e => is_HTTPException e = false /\ s' = s
     end.
Proof.
  unfold mkdtemp.
  destruct (lookup_node (fs s) (tempdir w)) as [[x|m]|] eqn:L; try (intros [= <- <-]; done).
  destruct (List.find _ (candidate_names w)) as [nm|]; [|intros [= <- <-]; done].
  destruct (update_dir _ (fs s) (tempdir w)) as [t'|] eqn:U; intros [= <- <-]; [|done].
  split; [done|]. eexists. split; [done|].
  apply update_dir_lookup in U as (m0 & _ & L').
  unfold resolve; simpl. rewrite lookup_node_app, L'. simpl.
  by rewrite lookup_insert_eq.
Qed.

Lemma mkdtemp_resolve (w : World) (s s' : State) (td : Path) :
  mkdtemp w s = (Ok td, s') -> resolve w td <> [].
Proof.
  intros H. apply mkdtemp_inv in H as (_ & nm & -> & _).
  unfold resolve; simpl. by destruct (tempdir w).
Qed.

(** ** The teardown *)

Lemma for_each_unlink_inv (w : World) (l : list Path) (s s' : State) (r : Result unit) :
  for_each l (unlink w) s = (r, s') ->
  console s' = console s
  /\ match r with Ok _ => True | Raise e => is_HTTPException e = false end.
Proof.
  revert s. induction l as [|p l IH]; intros s; simpl.
  - by intros [= <- <-].
  - unfold bind. destruct (unlink w p s) as [[[]|e] s1] eqn:E.
    + apply unlink_inv in E as [C _]. intros H. apply IH in H as [C' H].
      split; [congruence|done].
    + apply unlink_inv in E as (C & H & ->). by intros [= <- <-].
Qed.

Lemma unlink_child_file (w : World) (td : Path) (k : string) (s : State)
    (m : gmap string node) (d : list Byte.byte) :
  lookup_node (fs s) (resolve w td) = Some (Dir m) ->
  m !! k = Some (File d) ->
  exists s', unlink w (child td k) s = (Ok tt, s')
             /\ console s' = console s
             /\ lookup_node (fs s') (resolve w td) = Some (Dir (delete k m)).
Proof.
  intros L K. unfold unlink, remove_entry.
  rewrite resolve_child, lookup_node_app, L. simpl. rewrite K.
  rewrite split_last_snoc.
  destruct (update_dir_is_Some (delete k) _ _ _ L) as [t' U]. rewrite U.
  eexists. split; [done|]. split; [done|]. simpl.
  apply update_dir_lookup in U as (m0 & L0 & L'). congruence.
Qed.

(** Unlinking the listed entries of a directory of plain files empties it
    of them. *)
Lemma unlink_listed_files (w : World) (td : Path) (l : list string) :
  forall (s : State) (m : gmap string node),
    lookup_node (fs s) (resolve w td) = Some (Dir m) ->
    NoDup l ->
    (forall k, k ∈ l -> exists d, m !! k = Some (File d)) ->
    exists s' m',
      for_each (List.map (child td) l) (unlink w) s = (Ok tt, s')
      /\ console s' = console s
      /\ lookup_node (fs s') (resolve w td) = Some (Dir m')
      /\ forall j, m' !! j = if decide (j ∈ l) then None else m !! j.
Proof.
  induction l as [|k l IH]; intros s m L ND F; simpl.
  - exists s, m. split; [done|]. split; [done|]. split; [done|].
    intros j. destruct (decide (j ∈ [])) as [J|J]; [by apply elem_of_nil in J|done].
  - apply NoDup_cons in ND as [NI ND].
    destruct (F k) as [d K]; [apply list_elem_of_here|].
    destruct (unlink_child_file w td k s m d L K) as (s1 & E & C1 & L1).
    destruct (IH s1 (delete k m) L1 ND) as (s' & m' & E' & C' & L' & M').
    { intros j J. destruct (F j) as [dj Kj]; [by apply list_elem_of_further|].
      exists dj. rewrite lookup_delete_ne; [done|]. intros ->. done. }
    exists s', m'. unfold bind. rewrite E. split; [done|]. split; [congruence|].
    split; [done|]. intros j. rewrite M'.
    destruct (decide (j = k)) as [->|NE].
    + rewrite lookup_delete_eq.
      rewrite (decide_True (P := k ∈ k :: l)) by apply list_elem_of_here.
      by destruct (decide (k ∈ l)).
    + rewrite lookup_delete_ne by done.
      destruct (decide (j ∈ l)) as [I|I].
      * rewrite decide_True; [done|]. by apply list_elem_of_further.
      * rewrite decide_False; [done|]. rewrite elem_of_cons. by intros [?|?].
Qed.

(** Unlinking stops at the first entry that is a directory, which stays. *)
Lemma unlink_listed_stops (w : World) (td : Path) (k : string) (m0 : gmap string node)
    (l : list string) :
  forall (s : State) (m : gmap string node),
    lookup_node (fs s) (resolve w td) = Some (Dir m) ->
    m !! k = Some (Dir m0) ->
    k ∈ l ->
    exists e s' m',
      for_each (List.map (child td) l) (unlink w) s = (Raise e, s')
      /\ is_HTTPException e = false
      /\ console s' = console s
      /\ lookup_node (fs s') (resolve w td) = Some (Dir m')
      /\ m' !! k = Some (Dir m0).
Proof.
  induction l as [|j l IH]; intros s m L K J; simpl; [by apply elem_of_nil in J|].
  unfold bind. destruct (m !! j) as [[d|mj]|] eqn:Ej.
  - destruct (unlink_child_file w td j s m d L Ej) as (s1 & E & C1 & L1).
    rewrite E. assert (j <> k) as NE by congruence.
    destruct (IH s1 (delete j m) L1) as (e & s' & m' & E' & H' & C' & L' & K').
    { by rewrite lookup_delete_ne. }
    { apply elem_of_cons in J as [->|J]; done. }
    exists e, s', m'. repeat split; try done. congruence.
  - exists (EISDIR (child td j)), s, m.
    unfold unlink. rewrite resolve_child, lookup_node_app, L. simpl. by rewrite Ej.
  - exists (ENOENT (child td j)), s, m.
    unfold unlink. rewrite resolve_child, lookup_node_app, L. simpl. by rewrite Ej.
Qed.

Lemma glob_star_dir (w : World) (td : Path) (s : State) (m : gmap string node) :
  lookup_node (fs s) (resolve w td) = Some (Dir m) ->
  glob_star w td s = (Ok (List.map (child td) (List.map fst (map_to_list m))), s).
Proof. intros L. unfold glob_star. rewrite L. by rewrite List.map_map. Qed.

Lemma holds_only_files_spec (t : node) (ap : list string) :
  holds_only_files t ap = true ->
  exists m, lookup_node t ap = Some (Dir m)
            /\ forall k n, m !! k = Some n -> exists d, n = File d.
Proof.
  unfold holds_only_files. destruct (lookup_node t ap) as [[x|m]|]; try done.
  intros H. exists m. split; [done|]. intros k n K.
  rewrite forallb_forall in H. apply elem_of_map_to_list in K.
  apply list_elem_of_In in K. apply H in K. simpl in K. destruct n; [eauto|done].
Qed.

Lemma holds_a_directory_spec (t : node) (ap : list string) :
  holds_a_directory t ap = true <->
  exists m k m0, lookup_node t ap = Some (Dir m) /\ m !! k = Some (Dir m0).
Proof.
  unfold holds_a_directory. split.
  - destruct (lookup_node t ap) as [[x|m]|]; try done.
    intros H. apply existsb_exists in H as ([k n] & I & H). simpl in H.
    apply list_elem_of_In, elem_of_map_to_list in I.
    destruct n as [d|m0]; [done|]. eauto.
  - intros (m & k & m0 & -> & K). apply existsb_exists.
    exists (k, Dir m0). split; [|done].
    by apply list_elem_of_In, elem_of_map_to_list.
Qed.

(** A teardown that went through left nothing of the workspace and printed
    nothing. *)
Lemma cleanup_inv (w : World) (td : Path) (s s' : State) (r : Result unit) :
  cleanup w td s = (r, s') ->
  console s' = console s
  /\ match r with
     | Ok _ => forall q, lookup_node (fs s') (resolve w td ++ q) = None
     | Raise e => is_HTTPException e = false
     end.
Proof.
  unfold cleanup, bind.
  assert (exists l, glob_star w td s = (Ok l, s)) as [l ->].
  { unfold glob_star. destruct (lookup_node _ _) as [[x|m]|]; eauto. }
  destruct (for_each l (unlink w) s) as [[[]|e] s1] eqn:E;
    apply for_each_unlink_inv in E as [C H].
  - intros R. apply rmdir_inv in R as [C' R]. split; [congruence|].
    destruct r as [[]|e'].
    + destruct R as (t' & -> & R). intros q. simpl. by eapply remove_entry_gone.
    + by destruct R.
  - by intros [= <- <-].
Qed.

(** On a workspace of plain files the teardown goes through. *)
Lemma cleanup_files_only (w : World) (td : Path) (s : State) :
  resolve w td <> [] ->
  holds_only_files (fs s) (resolve w td) = true ->
  exists s', cleanup w td s = (Ok tt, s').
Proof.
  intros NE H. apply holds_only_files_spec in H as (m & L & F).
  unfold cleanup, bind. rewrite (glob_star_dir w td s m L).
  destruct (unlink_listed_files w td (List.map fst (map_to_list m)) s m L)
    as (s1 & m1 & E & C & L1 & M1).
  { apply NoDup_fst_map_to_list. }
  { intros k K. apply list_elem_of_fmap in K as ([k' n] & -> & K). simpl.
    apply elem_of_map_to_list in K. destruct (F _ _ K) as [d ->]. eauto. }
  rewrite E. unfold rmdir. rewrite L1.
  assert (m1 = ∅) as ->.
  { apply map_empty. intros j. rewrite M1. case_decide as J; [done|].
    destruct (m !! j) as [n|] eqn:Ej; [|done]. exfalso. apply J.
    apply list_elem_of_fmap. exists (j, n). split; [done|].
    by apply elem_of_map_to_list. }
  rewrite map_to_list_empty.
  unfold remove_entry. destruct (split_last (resolve w td)) as [[d nm]|] eqn:SL.
  - apply split_last_Some in SL. rewrite SL in L1.
    apply lookup_node_snoc in L1 as (md & Ld & _).
    destruct (update_dir_is_Some (delete nm) _ _ _ Ld) as [t' ->]. eauto.
  - by apply split_last_None in SL.
Qed.

(** On a workspace with a nested directory the teardown raises, and the
    directory is still there. *)
Lemma cleanup_nested (w : World) (td : Path) (s : State) :
  holds_a_directory (fs s) (resolve w td) = true ->
  exists e s', cleanup w td s = (Raise e, s')
               /\ holds_a_directory (fs s') (resolve w td) = true.
Proof.
  intros H. apply holds_a_directory_spec in H as (m & k & m0 & L & K).
  unfold cleanup, bind. rewrite (glob_star_dir w td s m L).
  destruct (unlink_listed_stops w td k m0 (List.map fst (map_to_list m)) s m L K)
    as (e & s' & m' & E & _ & _ & L' & K').
  { apply list_elem_of_fmap. exists (k, Dir m0). split; [done|].
    by apply elem_of_map_to_list. }
  rewrite E. exists e, s'. split; [done|].
  apply holds_a_directory_spec. eauto.
Qed.

(** ** The request handler *)

Section Handler.
Variable w : World.
Variable converter : Path -> Path -> string -> M (option Path).
Variable file : UploadFile.

Local Abbreviation file_ext := (Str.lower (suffix (Path_of (filename file)))).

Lemma convert_file_with_unsupported (s : State) :
  dict_in file_ext FORMAT_MAPPING = false ->
  convert_file_with w converter file s
  = (Raise (HTTPException 400 unsupported_detail), s).
Proof. intros H. unfold convert_file_with. by rewrite H. Qed.

(** The handler on a supported extension, one step at a time. *)
Lemma convert_file_with_supported (s : State) (output_ext output_format : string) :
  dict_get FORMAT_MAPPING file_ext = Some output_ext ->
  dict_get LIBREOFFICE_FILTERS output_ext = Some output_format ->
  convert_file_with w converter file s
  = match mkdtemp w s with
    | (Ok temp_dir, s1) =>
        match convert_body w converter file file_ext output_ext output_format
                temp_dir s1 with
        | (Ok response, s2) => (Ok response, s2)
        | (Raise e, s2) =>
            match cleanup w temp_dir s2 with
            | (Ok _, s3) => (Raise (reported e), s3)
            | (Raise e', s3) => (Raise e', s3)
            end
        end
    | (Raise e, s1) => (Raise e, s1)
    end.
Proof.
  intros H1 H2. unfold convert_file_with, dict_in, getitem.
  rewrite H1. cbv beta iota delta [negb].
  unfold bind at 1, ret at 1. rewrite H2.
  unfold bind at 1, ret at 1. unfold bind at 1.
  destruct (mkdtemp w s) as [[td|e] s1]; [|done].
  unfold try_except.
  destruct (convert_body _ _ _ _ _ _ _ _) as [[resp|e] s2]; [done|].
  unfold convert_handlers, reported, bind, raise.
  destruct e; simpl; destruct (cleanup w td s2) as [[[]|e'] s3]; done.
Qed.

Lemma supported_tables :
  dict_in file_ext FORMAT_MAPPING = true ->
  exists output_ext output_format,
    dict_get FORMAT_MAPPING file_ext = Some output_ext
    /\ dict_get LIBREOFFICE_FILTERS output_ext = Some output_format.
Proof.
  intros H. apply dict_in_get in H as [v H].
  destruct (filters_cover_mapping _ _ H) as (f & F & _). eauto.
Qed.

Lemma convert_body_ok (ext output_ext output_format : string) (temp_dir : Path)
    (s s' : State) (response : FileResponse) :
  convert_body w converter file ext output_ext output_format temp_dir s
  = (Ok response, s') ->
  response_filename response = stem (Path_of (filename file)) +:+ output_ext
  /\ exists p, path response = str_of_Path p
               /\ lookup_node (fs s') (resolve w p) <> None.
Proof.
  unfold convert_body, bind, ret, raise, exists_.
  destruct (write_bytes _ _ _ s) as [[[]|e] s1]; [|done].
  destruct (converter _ _ _ s1) as [[[p|]|e] s2]; try done.
  destruct (lookup_node (fs s2) (resolve w p)) eqn:L; simpl; [|done].
  intros [= <- <-]. split; [done|]. exists p. by rewrite L.
Qed.

(** What the body of the [try] can raise. *)
Lemma convert_body_raise (ext output_ext output_format : string) (temp_dir : Path)
    (s s' : State) (e : exn) :
  convert_body w converter file ext output_ext output_format temp_dir s
  = (Raise e, s') ->
  is_HTTPException e = false
  \/ e = HTTPException 500 conversion_failed_detail
  \/ exists s1, converter (temp_dir // (uuid4 w +:+ ext)) temp_dir output_format s1
                = (Raise e, s').
Proof.
  unfold convert_body, bind, ret, raise, exists_.
  destruct (write_bytes _ _ _ s) as [[[]|e0] s1] eqn:W.
  - destruct (converter _ _ _ s1) as [[[p|]|e1] s2] eqn:C.
    + destruct (lookup_node (fs s2) (resolve w p)); simpl; [done|].
      intros [= <- <-]. auto.
    + intros [= <- <-]. auto.
    + intros [= <- <-]. eauto.
  - apply write_bytes_inv in W as [_ W]. intros [= <- <-]. auto.
Qed.

(** The body of the [try] when the converter gives no usable result. *)
Lemma convert_body_failed (ext output_ext output_format : string) (temp_dir : Path)
    (s s1 s2 : State) (result : option Path) :
  write_bytes w (temp_dir // (uuid4 w +:+ ext)) (content file) s = (Ok tt, s1) ->
  converter (temp_dir // (uuid4 w +:+ ext)) temp_dir output_format s1
  = (Ok result, s2) ->
  (result = None \/ exists p, result = Some p /\ fst (exists_ w p s2) = Ok false) ->
  convert_body w converter file ext output_ext output_format temp_dir s
  = (Raise (HTTPException 500 conversion_failed_detail), s2).
Proof.
  intros W C R. unfold convert_body, bind, raise. rewrite W, C.
  destruct R as [->|(p & -> & R)]; [done|].
  unfold exists_ in *. by destruct (lookup_node (fs s2) (resolve w p)).
Qed.

End Handler.

(** With the real invoker the body raises the 500 or no HTTP error. *)
Lemma convert_body_real_raise (w : World) (file : UploadFile)
    (ext output_ext output_format : string) (temp_dir : Path) (s s' : State) (e : exn) :
  convert_body w (convert_with_libreoffice w) file ext output_ext output_format
    temp_dir s = (Raise e, s') ->
  is_HTTPException e = false \/ e = HTTPException 500 conversion_failed_detail.
Proof.
  intros H. apply convert_body_raise in H as [H|[H|[s1 H]]]; auto.
  destruct (convert_with_libreoffice_returns w (temp_dir // (uuid4 w +:+ ext))
              temp_dir output_format s1) as (r & s2 & E).
  congruence.
Qed.

(** The only 400 of [convert_file] is the one of the extension check. *)
Lemma convert_file_400 (w : World) (file : UploadFile) (s s' : State) (d : json) :
  convert_file w file s = (Raise (HTTPException 400 d), s') ->
  dict_in (Str.lower (suffix (Path_of (filename file)))) FORMAT_MAPPING = false.
Proof.
  unfold convert_file.
  destruct (dict_in _ FORMAT_MAPPING) eqn:D; [|done].
  destruct (supported_tables file D) as (oe & fm & H1 & H2).
  rewrite (convert_file_with_supported w _ file s oe fm H1 H2).
  destruct (mkdtemp w s) as [[td|e] s1] eqn:T.
  - destruct (convert_body _ _ _ _ _ _ _ _) as [[resp|e] s2] eqn:B; [done|].
    destruct (cleanup w td s2) as [[[]|e'] s3] eqn:C.
    + apply convert_body_real_raise in B as [B| ->].
      * unfold reported. rewrite B. done.
      * done.
    + apply cleanup_inv in C as [_ C]. intros [= -> _]. done.
  - apply mkdtemp_inv in T as (_ & T & _). intros [= -> _]. done.
Qed.

(** ** Extension validation *)

(** C3. An upload whose extension, lower-cased, is not [.doc], [.xls] or
    [.ppt] (in particular an upload without extension) gets the 400 error
    whose message lists the three supported extensions, and nothing else
    happens; an upload whose lower-cased extension is one of the three never
    gets a 400. *)
Theorem unsupported_extension_is_400 (w : World) (file : UploadFile) (s : State) :
  let ext := Str.lower (suffix (Path_of (filename file))) in
  let message :=
    JStr "Unsupported file format. Supported formats: .doc, .xls, .ppt" in
  (~ In ext [".doc"; ".xls"; ".ppt"] ->
   convert_file w file s = (Raise (HTTPException 400 message), s))
  /\ (suffix (Path_of (filename file)) = "" ->
      convert_file w file s = (Raise (HTTPException 400 message), s))
  /\ (In ext [".doc"; ".xls"; ".ppt"] ->
      forall d, fst (convert_file w file s) <> Raise (HTTPException 400 d)).
Proof.
  intros ext message.
  assert (~ In ext [".doc"; ".xls"; ".ppt"] ->
          convert_file w file s = (Raise (HTTPException 400 message), s)) as A.
  { intros H. apply convert_file_with_unsupported. fold ext.
    destruct (dict_in ext FORMAT_MAPPING) eqn:D; [|done].
    by apply dict_in_FORMAT_MAPPING in D. }
  split; [exact A|]. split.
  - intros E. apply A. subst ext. rewrite E. simpl.
    intros [H|[H|[H|[]]]]; discriminate.
  - intros H d E. apply dict_in_FORMAT_MAPPING in H.
    destruct (convert_file w file s) as [r s'] eqn:C. simpl in E. subst r.
    apply convert_file_400 in C. fold ext in C. congruence.
Qed.

Lemma unsupported_extension_is_400_witness :
  fst (convert_file (Samples.world Samples.converts) (Samples.upload "document.pdf")
         Samples.start)
  = Raise (HTTPException 400
             (JStr "Unsupported file format. Supported formats: .doc, .xls, .ppt"))
  /\ fst (convert_file (Samples.world Samples.converts) (Samples.upload "document")
            Samples.start)
     = Raise (HTTPException 400
                (JStr "Unsupported file format. Supported formats: .doc, .xls, .ppt"))
  /\ fst (convert_file (Samples.world Samples.converts) (Samples.upload "TEST.DOC")
            Samples.start)
     <> Raise (HTTPException 400 unsupported_detail).
Proof.
  split; [|split].
  - rewrite (proj1 (unsupported_extension_is_400 (Samples.world Samples.converts)
                      (Samples.upload "document.pdf") Samples.start)); [reflexivity|].
    simpl. intros [H|[H|[H|[]]]]; discriminate.
  - rewrite (proj1 (proj2 (unsupported_extension_is_400 (Samples.world Samples.converts)
                             (Samples.upload "document") Samples.start)));
      reflexivity.
  - apply (proj2 (proj2 (unsupported_extension_is_400 (Samples.world Samples.converts)
                           (Samples.upload "TEST.DOC") Samples.start))).
    simpl. left. reflexivity.
Defined.

(** C9. An upload whose whole name is, up to case, a supported extension
    (such as [.doc]) has no extension for [pathlib]: its suffix is empty,
    and it gets the 400 error. *)
Theorem bare_extension_name_is_400 (w : World) (file : UploadFile) (s : State) :
  In (Str.lower (filename file)) (keys FORMAT_MAPPING) ->
  suffix (Path_of (filename file)) = ""
  /\ convert_file w file s = (Raise (HTTPException 400 unsupported_detail), s).
Proof.
  intros H.
  assert (suffix (Path_of (filename file)) = "") as E.
  { apply lower_empty. rewrite <- suffix_lower.
    simpl in H. destruct H as [<-|[<-|[<-|[]]]]; reflexivity. }
  split; [exact E|].
  apply convert_file_with_unsupported. by rewrite E.
Qed.

Lemma bare_extension_name_is_400_witness :
  suffix (Path_of ".doc") = ""
  /\ convert_file (Samples.world Samples.converts) (Samples.upload ".doc") Samples.start
     = (Raise (HTTPException 400 unsupported_detail), Samples.start).
Proof.
  apply (bare_extension_name_is_400 (Samples.world Samples.converts)
           (Samples.upload ".doc") Samples.start).
  simpl. left. reflexivity.
Defined.

(** C10. The extension check comes before any effect: an upload that is
    rejected by it leaves the whole state, the disk included, as it was; and
    a 400 from [POST /convert] is always that rejection. *)
Theorem rejection_leaves_disk_untouched (w : World) (file : UploadFile) (s : State) :
  (dict_in (Str.lower (suffix (Path_of (filename file)))) FORMAT_MAPPING = false ->
   convert_file w file s = (Raise (HTTPException 400 unsupported_detail), s))
  /\ (forall d s',
        convert_file w file s = (Raise (HTTPException 400 d), s') ->
        s' = s /\ fs s' = fs s /\ d = unsupported_detail).
Proof.
  split.
  - apply convert_file_with_unsupported.
  - intros d s' H. pose proof (convert_file_400 _ _ _ _ _ H) as D.
    unfold convert_file in H. rewrite convert_file_with_unsupported in H by done.
    by injection H as <- <-.
Qed.

Lemma rejection_leaves_disk_untouched_witness :
  convert_file (Samples.world Samples.converts) (Samples.upload "document.pdf")
    Samples.start
  = (Raise (HTTPException 400 unsupported_detail), Samples.start).
Proof.
  apply (proj1 (rejection_leaves_disk_untouched (Samples.world Samples.converts)
                  (Samples.upload "document.pdf") Samples.start)).
  reflexivity.
Defined.

(** ** The response of a successful conversion *)

Lemma response_filename_of_success (w : World)
    (converter : Path -> Path -> string -> M (option Path))
    (file : UploadFile) (s s' : State) (response : FileResponse) :
  convert_file_with w converter file s = (Ok response, s') ->
  exists modern,
    dict_get FORMAT_MAPPING (Str.lower (suffix (Path_of (filename file)))) = Some modern
    /\ response_filename response = stem (Path_of (filename file)) +:+ modern.
Proof.
  intros H.
  destruct (dict_in (Str.lower (suffix (Path_of (filename file)))) FORMAT_MAPPING) eqn:D.
  - destruct (supported_tables file D) as (oe & fm & H1 & H2).
    rewrite (convert_file_with_supported w converter file s oe fm H1 H2) in H.
    destruct (mkdtemp w s) as [[td|e] s1]; [|done].
    destruct (convert_body _ _ _ _ _ _ _ _) as [[resp|e] s2] eqn:B.
    + injection H as -> ->. apply convert_body_ok in B as [B _]. eauto.
    + by destruct (cleanup w td s2) as [[[]|e'] s3].
  - by rewrite convert_file_with_unsupported in H.
Qed.

(** C4. After a successful [POST /convert] the file name given to the
    response (the one the framework puts in the attachment
    [Content-Disposition]) is the stem of the uploaded name, that is the
    name without its extension, followed by the modern extension mapped to
    the legacy one.  It is a function of the uploaded name alone: any other
    successful conversion of an upload of that name, whatever the staging
    name and the world, carries the same file name. *)
Theorem response_filename_from_upload (w : World)
    (converter : Path -> Path -> string -> M (option Path))
    (file : UploadFile) (s s' : State) (response : FileResponse) :
  convert_file_with w converter file s = (Ok response, s') ->
  let uploaded := Path_of (filename file) in
  exists modern,
    ((Str.lower (suffix uploaded) = ".doc" /\ modern = ".docx")
     \/ (Str.lower (suffix uploaded) = ".xls" /\ modern = ".xlsx")
     \/ (Str.lower (suffix uploaded) = ".ppt" /\ modern = ".pptx"))
    /\ response_filename response = stem uploaded +:+ modern
    /\ name uploaded = stem uploaded +:+ suffix uploaded
    /\ forall w2 converter2 file2 s2 s2' response2,
         filename file2 = filename file ->
         convert_file_with w2 converter2 file2 s2 = (Ok response2, s2') ->
         response_filename response2 = response_filename response.
Proof.
  intros H uploaded.
  destruct (response_filename_of_success _ _ _ _ _ _ H) as (modern & G & F).
  exists modern. split; [by apply dict_get_FORMAT_MAPPING|].
  split; [exact F|]. split; [apply name_stem_suffix|].
  intros w2 converter2 file2 s2 s2' response2 E H2.
  destruct (response_filename_of_success _ _ _ _ _ _ H2) as (modern2 & G2 & F2).
  rewrite E in G2, F2. congruence.
Qed.

Lemma response_filename_from_upload_witness :
  response_filename
    {| path := "/tmp/tmpk3v_9qzt/6f1c2a9e-0b7d-4e55-9c3a-2d8e4f5a6b7c.docx";
       response_filename := "Quarterly.Report.docx";
       media_type := "application/octet-stream";
       background := None |}
  = stem (Path_of "Quarterly.Report.DOC") +:+ ".docx".
Proof.
  destruct (response_filename_from_upload (Samples.world Samples.converts)
              (convert_with_libreoffice (Samples.world Samples.converts))
              (Samples.upload "Quarterly.Report.DOC") Samples.start
              (snd (convert_file (Samples.world Samples.converts)
                      (Samples.upload "Quarterly.Report.DOC") Samples.start))
              {| path := "/tmp/tmpk3v_9qzt/6f1c2a9e-0b7d-4e55-9c3a-2d8e4f5a6b7c.docx";
                 response_filename := "Quarterly.Report.docx";
                 media_type := "application/octet-stream";
                 background := None |})
    as (modern & M & F & _).
  - vm_compute. reflexivity.
  - destruct M as [[_ ->]|[[E _]|[E _]]]; [exact F|discriminate E|discriminate E].
Defined.

(** ** The tests of the repository, on the model *)

Example test_convert_doc_to_docx :
  fst (convert_file_with (Samples.world Samples.idles)
         (Samples.stub (Some (Path_of "/tmp/out/test.docx")))
         (Samples.upload "test.doc")
         {| fs := Samples.disk_with_output; console := [] |})
  = Ok {| path := "/tmp/out/test.docx";
          response_filename := "test.docx";
          media_type := "application/octet-stream";
          background := None |}.
Proof. vm_compute. reflexivity. Qed.

Example test_convert_case_insensitive_extension :
  fst (convert_file_with (Samples.world Samples.idles)
         (Samples.stub (Some (Path_of "/tmp/out/test.docx")))
         (Samples.upload "TEST.DOC")
         {| fs := Samples.disk_with_output; console := [] |})
  = Ok {| path := "/tmp/out/test.docx";
          response_filename := "TEST.docx";
          media_type := "application/octet-stream";
          background := None |}.
Proof. vm_compute. reflexivity. Qed.

Example test_convert_unsupported_format :
  fst (convert_file (Samples.world Samples.converts) (Samples.upload "document.pdf")
         Samples.start)
  = Raise (HTTPException 400
             (JStr "Unsupported file format. Supported formats: .doc, .xls, .ppt")).
Proof. reflexivity. Qed.

Example test_convert_no_file_extension :
  fst (convert_file (Samples.world Samples.converts) (Samples.upload "document")
         Samples.start)
  = Raise (HTTPException 400 unsupported_detail).
Proof. reflexivity. Qed.

Example test_convert_conversion_fails :
  fst (convert_file_with (Samples.world Samples.idles) (Samples.stub None)
         (Samples.upload "test.doc") Samples.start)
  = Raise (HTTPException 500
             (JStr "Conversion failed. Please check if the file is valid.")).
Proof. vm_compute. reflexivity. Qed.

Example end_to_end_conversion :
  fst (convert_file (Samples.world Samples.converts) (Samples.upload "test.doc")
         Samples.start)
  = Ok {| path := "/tmp/tmpk3v_9qzt/6f1c2a9e-0b7d-4e55-9c3a-2d8e4f5a6b7c.docx";
          response_filename := "test.docx";
          media_type := "application/octet-stream";
          background := None |}.
Proof. vm_compute. reflexivity. Qed.

Example unexpected_fault_is_500 :
  fst (convert_file (Samples.disk_full (Samples.world Samples.converts))
         (Samples.upload "test.doc") Samples.start)
  = Raise (HTTPException 500
             (JStr "An error occurred: [Errno 28] No space left on device")).
Proof. vm_compute. reflexivity. Qed.

(** ** The scratch workspace *)




(** ** Conversion failure *)

(** C5, as the code has it.  For a supported upload, once the workspace is
    made and the upload staged, a converter that returns [None], or a path
    that is not on disk, makes the body raise the 500 "Conversion failed"
    error; the handler answers with it when the workspace then holds plain
    files only, and the workspace is removed. *)
Theorem conversion_failure_is_500 (w : World)
    (converter : Path -> Path -> string -> M (option Path))
    (file : UploadFile) (s s1 s2 s3 : State) (temp_dir : Path)
    (output_ext output_format : string) (result : option Path) :
  let file_ext := Str.lower (suffix (Path_of (filename file))) in
  let input_path := temp_dir // (uuid4 w +:+ file_ext) in
  dict_get FORMAT_MAPPING file_ext = Some output_ext ->
  dict_get LIBREOFFICE_FILTERS output_ext = Some output_format ->
  mkdtemp w s = (Ok temp_dir, s1) ->
  write_bytes w input_path (content file) s1 = (Ok tt, s2) ->
  converter input_path temp_dir output_format s2 = (Ok result, s3) ->
  (result = None \/ exists p, result = Some p /\ fst (exists_ w p s3) = Ok false) ->
  holds_only_files (fs s3) (resolve w temp_dir) = true ->
  exists s',
    convert_file_with w converter file s
    = (Raise (HTTPException 500
                (JStr "Conversion failed. Please check if the file is valid.")), s')
    /\ forall q, lookup_node (fs s') (resolve w temp_dir ++ q) = None.
Proof.
  intros file_ext input_path H1 H2 T W C R F.
  rewrite (convert_file_with_supported w converter file s _ _ H1 H2), T.
  fold file_ext.
  rewrite (convert_body_failed w converter file file_ext output_ext output_format
             temp_dir s1 s2 s3 result W C R).
  destruct (cleanup_files_only w temp_dir s3) as [s' E]; [|done|].
  { by eapply mkdtemp_resolve. }
  rewrite E. exists s'. split; [done|].
  by apply cleanup_inv in E as [_ E].
Qed.

Lemma conversion_failure_is_500_witness :
  (exists s',
     convert_file (Samples.world Samples.rejects) (Samples.upload "sheet.xls")
       Samples.start
     = (Raise (HTTPException 500
                 (JStr "Conversion failed. Please check if the file is valid.")), s')
     /\ forall q, lookup_node (fs s') (Samples.workspace ++ q) = None)
  /\ (exists s',
        convert_file_with (Samples.world Samples.idles)
          (Samples.stub (Some (Path_of "/nowhere/test.docx")))
          (Samples.upload "test.doc") Samples.start
        = (Raise (HTTPException 500
                    (JStr "Conversion failed. Please check if the file is valid.")), s')
        /\ forall q, lookup_node (fs s') (Samples.workspace ++ q) = None).
Proof.
  pose (td := {| anchored := true; parts := Samples.workspace |}).
  split.
  - pose (w := Samples.world Samples.rejects).
    pose (s1 := snd (mkdtemp w Samples.start)).
    pose (s2 := snd (write_bytes w (td // (uuid4 w +:+ ".xls"))
                       (content (Samples.upload "sheet.xls")) s1)).
    pose (s3 := snd (convert_with_libreoffice w (td // (uuid4 w +:+ ".xls")) td
                       "xlsx" s2)).
    apply (conversion_failure_is_500 w (convert_with_libreoffice w)
             (Samples.upload "sheet.xls") Samples.start s1 s2 s3 td ".xlsx" "xlsx" None).
    + reflexivity.
    + reflexivity.
    + vm_compute. reflexivity.
    + vm_compute. reflexivity.
    + vm_compute. reflexivity.
    + left. reflexivity.
    + vm_compute. reflexivity.
  - pose (w := Samples.world Samples.idles).
    pose (s1 := snd (mkdtemp w Samples.start)).
    pose (s2 := snd (write_bytes w (td // (uuid4 w +:+ ".doc"))
                       (content (Samples.upload "test.doc")) s1)).
    apply (conversion_failure_is_500 w
             (Samples.stub (Some (Path_of "/nowhere/test.docx")))
             (Samples.upload "test.doc") Samples.start s1 s2 s2 td ".docx" "docx"
             (Some (Path_of "/nowhere/test.docx"))).
    + reflexivity.
    + reflexivity.
    + vm_compute. reflexivity.
    + vm_compute. reflexivity.
    + reflexivity.
    + right. exists (Path_of "/nowhere/test.docx"). split; reflexivity.
    + vm_compute. reflexivity.
Defined.

(** C5 fails as stated.  The upload is supported, the invoker returns
    [None] and the body raises the 500 "Conversion failed" error, but the
    converter left a directory in the workspace: the teardown raises on it
    and the caller gets that exception, not the 500. *)
Lemma conversion_failure_not_500 :
  let w := Samples.world Samples.litters in
  let file := Samples.upload "test.doc" in
  let temp_dir := {| anchored := true; parts := Samples.workspace |} in
  let input_path := temp_dir // (uuid4 w +:+ ".doc") in
  let s1 := snd (mkdtemp w Samples.start) in
  let s2 := snd (write_bytes w input_path (content file) s1) in
  Str.lower (suffix (Path_of (filename file))) = ".doc"
  /\ fst (mkdtemp w Samples.start) = Ok temp_dir
  /\ fst (write_bytes w input_path (content file) s1) = Ok tt
  /\ fst (convert_with_libreoffice w input_path temp_dir "docx" s2) = Ok None
  /\ fst (convert_file w file Samples.start)
     = Raise (IsADirectoryError
                "[Errno 21] Is a directory: '/tmp/tmpk3v_9qzt/lu8842.tmp'")
  /\ fst (convert_file w file Samples.start)
     <> Raise (HTTPException 500
                 (JStr "Conversion failed. Please check if the file is valid.")).
Proof. vm_compute. repeat split; try reflexivity. discriminate. Qed.

(** ** Teardown *)

(** C8, as the code has it.  The teardown unlinks the entries of the
    workspace and removes the directory; it does not descend and it absorbs
    nothing.  When the body of the [try] raised [e]:
    - on a workspace of plain files the teardown goes through, prints
      nothing, removes the workspace, and the caller gets the error that
      belongs to [e] ([e] itself for an HTTP error, the 500 carrying
      [str(e)] otherwise);
    - on a workspace that holds a directory the teardown raises, the caller
      gets that exception in place of the error that belongs to [e], and the
      workspace stays on disk with the directory in it. *)
Theorem teardown_outcome (w : World)
    (converter : Path -> Path -> string -> M (option Path))
    (file : UploadFile) (s s1 s2 : State) (temp_dir : Path)
    (output_ext output_format : string) (e : exn) :
  let file_ext := Str.lower (suffix (Path_of (filename file))) in
  dict_get FORMAT_MAPPING file_ext = Some output_ext ->
  dict_get LIBREOFFICE_FILTERS output_ext = Some output_format ->
  mkdtemp w s = (Ok temp_dir, s1) ->
  convert_body w converter file file_ext output_ext output_format temp_dir s1
  = (Raise e, s2) ->
  (holds_only_files (fs s2) (resolve w temp_dir) = true ->
   exists s',
     convert_file_with w converter file s = (Raise (reported e), s')
     /\ console s' = console s2
     /\ forall q, lookup_node (fs s') (resolve w temp_dir ++ q) = None)
  /\ (holds_a_directory (fs s2) (resolve w temp_dir) = true ->
      exists e' s',
        convert_file_with w converter file s = (Raise e', s')
        /\ is_HTTPException e' = false
        /\ e' <> reported e
        /\ console s' = console s2
        /\ holds_a_directory (fs s') (resolve w temp_dir) = true).
Proof.
  intros file_ext H1 H2 T B.
  rewrite (convert_file_with_supported w converter file s _ _ H1 H2), T.
  fold file_ext. rewrite B. split.
  - intros F. destruct (cleanup_files_only w temp_dir s2) as [s' E]; [|done|].
    { by eapply mkdtemp_resolve. }
    rewrite E. exists s'. split; [done|].
    by apply cleanup_inv in E as [C E].
  - intros N. destruct (cleanup_nested w temp_dir s2 N) as (e' & s' & E & N').
    rewrite E. exists e', s'. split; [done|].
    apply cleanup_inv in E as [C E]. repeat split; try done.
    intros ->. unfold reported in E. by destruct e.
Qed.

Lemma teardown_outcome_witness :
  (exists s',
     convert_file (Samples.disk_full (Samples.world Samples.converts))
       (Samples.upload "slides.ppt") Samples.start
     = (Raise (HTTPException 500
                 (JStr "An error occurred: [Errno 28] No space left on device")), s')
     /\ lookup_node (fs s') Samples.workspace = None)
  /\ (exists e' s',
        convert_file (Samples.world Samples.litters) (Samples.upload "test.doc")
          Samples.start = (Raise e', s')
        /\ is_HTTPException e' = false
        /\ holds_a_directory (fs s') Samples.workspace = true).
Proof.
  pose (td := {| anchored := true; parts := Samples.workspace |}).
  split.
  - pose (w := Samples.disk_full (Samples.world Samples.converts)).
    pose (s1 := snd (mkdtemp w Samples.start)).
    pose (s2 := snd (convert_body w (convert_with_libreoffice w)
                       (Samples.upload "slides.ppt") ".ppt" ".pptx" "pptx" td s1)).
    destruct (proj1 (teardown_outcome w (convert_with_libreoffice w)
                       (Samples.upload "slides.ppt") Samples.start s1 s2 td
                       ".pptx" "pptx"
                       (OSError "[Errno 28] No space left on device")
                       eq_refl eq_refl eq_refl eq_refl) eq_refl)
      as (s' & E & _ & G).
    exists s'. split; [exact E|]. exact (G []).
  - pose (w := Samples.world Samples.litters).
    pose (s1 := snd (mkdtemp w Samples.start)).
    pose (s2 := snd (convert_body w (convert_with_libreoffice w)
                       (Samples.upload "test.doc") ".doc" ".docx" "docx" td s1)).
    destruct (proj2 (teardown_outcome w (convert_with_libreoffice w)
                       (Samples.upload "test.doc") Samples.start s1 s2 td
                       ".docx" "docx"
                       (HTTPException 500 conversion_failed_detail)
                       eq_refl eq_refl eq_refl eq_refl) eq_refl)
      as (e' & s' & E & H & _ & _ & N).
    exists e', s'. split; [exact E|]. split; [exact H|exact N].
Defined.

(** C8 fails as stated.  The body raised the 500 "Conversion failed" error;
    the workspace held a directory, empty at that; the teardown raised on it
    and that exception, not the 500, reached the caller, with the workspace
    still on disk. *)
Lemma teardown_failure_reaches_caller :
  let w := Samples.world Samples.litters in
  let file := Samples.upload "test.doc" in
  let temp_dir := {| anchored := true; parts := Samples.workspace |} in
  let s1 := snd (mkdtemp w Samples.start) in
  fst (mkdtemp w Samples.start) = Ok temp_dir
  /\ fst (convert_body w (convert_with_libreoffice w) file ".doc" ".docx" "docx"
            temp_dir s1)
     = Raise (HTTPException 500
                (JStr "Conversion failed. Please check if the file is valid."))
  /\ fst (convert_file w file Samples.start)
     = Raise (IsADirectoryError
                "[Errno 21] Is a directory: '/tmp/tmpk3v_9qzt/lu8842.tmp'")
  /\ lookup_node (fs (snd (convert_file w file Samples.start)))
       (Samples.workspace ++ ["lu8842.tmp"])
     = Some (Dir ∅).
Proof. vm_compute. repeat split; reflexivity. Qed.

(** * Further properties *)

(** ** More on strings and names *)

Lemma contains_append (c : ascii) (a b : string) :
  Str.contains c (a +:+ b) = Str.contains c a || Str.contains c b.
Proof.
  induction a as [|x a IH]; [done|].
  rewrite append_cons. simpl. by rewrite IH, orb_assoc.
Qed.

Lemma length_append (a b : string) :
  String.length (a +:+ b) = (String.length a + String.length b)%nat.
Proof. induction a as [|x a IH]; [done|]. rewrite append_cons. simpl. by rewrite IH. Qed.

Lemma take_append (a b : string) : Str.take (String.length a) (a +:+ b) = a.
Proof. induction a as [|x a IH]; [by destruct b|]. rewrite append_cons. simpl. by rewrite IH. Qed.

Lemma drop_append (a b : string) : Str.drop (String.length a) (a +:+ b) = b.
Proof. induction a as [|x a IH]; [by destruct b|]. rewrite append_cons. simpl. by rewrite IH. Qed.

Lemma contains_take (c : ascii) (n : nat) (s : string) :
  Str.contains c s = false -> Str.contains c (Str.take n s) = false.
Proof.
  revert s. induction n as [|n IH]; intros [|a s]; simpl; try done.
  intros H. apply orb_false_iff in H as [-> H]. simpl. by apply IH.
Qed.

Lemma rfind_absent (c : ascii) (s : string) :
  Str.contains c s = false -> Str.rfind c s = -1.
Proof.
  induction s as [|a s IH]; simpl; [done|].
  intros H. apply orb_false_iff in H as [-> H]. by rewrite (IH H).
Qed.

(** The last dot of [u + "." + e] is the one in the middle when [e] has
    none. *)
Lemma rfind_dot_append (u e : string) :
  Str.contains "." e = false ->
  Str.rfind "." (u +:+ String "." e) = Str.len u.
Proof.
  intros H. unfold Str.len. induction u as [|a u IH].
  - simpl. by rewrite (rfind_absent _ _ H).
  - rewrite append_cons. simpl Str.rfind. rewrite IH.
    destruct (0 <=? Z.of_nat (String.length u))%Z eqn:E; [simpl; lia|lia].
Qed.

Lemma stem_suffix_of_name (p : Path) (u e : string) :
  name p = u +:+ String "." e ->
  u <> "" -> e <> "" -> Str.contains "." e = false ->
  stem p = u /\ suffix p = String "." e.
Proof.
  intros N U E D. unfold stem, suffix, Str.slice_to, Str.slice_from. rewrite N.
  rewrite (rfind_dot_append u e D). unfold Str.len. rewrite length_append. simpl.
  assert (0 < String.length u)%nat by (destruct u; [done|simpl; lia]).
  assert (0 < String.length e)%nat by (destruct e; [done|simpl; lia]).
  replace ((0 <? Z.of_nat (String.length u))
           && (Z.of_nat (String.length u)
               <? Z.of_nat (String.length u + S (String.length e)) - 1))%Z with true
    by (symmetry; apply andb_true_iff; split; apply Z.ltb_lt; lia).
  rewrite Nat2Z.id. by rewrite take_append, drop_append.
Qed.

Lemma split_single (s : string) :
  Str.contains "/" s = false -> Str.split "/" s = [s].
Proof.
  induction s as [|a s IH]; simpl; [done|].
  intros H. apply orb_false_iff in H as [-> H]. by rewrite (IH H).
Qed.

Lemma startswith_slash_absent (s : string) :
  Str.contains "/" s = false -> Str.startswith_slash s = false.
Proof. destruct s as [|a s]; simpl; [done|]. intros H. by apply orb_false_iff in H as [-> _]. Qed.

(** A name without separator, other than the empty one and [.], parses as
    itself. *)
Lemma Path_of_single (x : string) :
  Str.contains "/" x = false -> keep_part x = true ->
  Path_of x = {| anchored := false; parts := [x] |}.
Proof.
  intros H K. unfold Path_of.
  rewrite (startswith_slash_absent _ H), (split_single _ H). simpl. by rewrite K.
Qed.

Lemma truediv_single (p : Path) (x : string) :
  Str.contains "/" x = false -> keep_part x = true -> p // x = child p x.
Proof. intros H K. unfold truediv. by rewrite (Path_of_single _ H K). Qed.

Lemma keep_part_dotted (u e : string) : e <> "" -> keep_part (u +:+ String "." e) = true.
Proof.
  intros E. destruct u as [|a [|b u]].
  - destruct e; [done|]. unfold keep_part. simpl. done.
  - rewrite append_cons. unfold keep_part. simpl. by destruct (Ascii.eqb a ".").
  - rewrite !append_cons. unfold keep_part. simpl. by destruct (Ascii.eqb a ".").
Qed.

Lemma split_no_slash (s x : string) :
  In x (Str.split "/" s) -> Str.contains "/" x = false.
Proof.
  revert x. induction s as [|a s IH]; intros x; simpl.
  - by intros [<-|[]].
  - destruct (Ascii.eqb a "/") eqn:E.
    + intros [<-|H]; [done|by apply IH].
    + destruct (Str.split "/" s) as [|y ys] eqn:S.
      * intros [<-|[]]. simpl. by rewrite E.
      * intros [<-|H].
        -- simpl. rewrite E. simpl. apply IH. by left.
        -- apply IH. by right.
Qed.

Lemma name_Path_of_no_slash (s : string) :
  Str.contains "/" (name (Path_of s)) = false.
Proof.
  unfold name, Path_of; simpl.
  destruct (last_In_or_default (List.filter keep_part (Str.split "/" s)) "")
    as [->|H]; [done|].
  apply filter_In in H as [H _]. by apply split_no_slash in H.
Qed.

Lemma stem_Path_of_no_slash (s : string) :
  Str.contains "/" (stem (Path_of s)) = false.
Proof.
  unfold stem, Str.slice_to. pose proof (name_Path_of_no_slash s) as H.
  destruct ((0 <? _) && _)%Z; [by apply contains_take|done].
Qed.

Lemma suffix_stem_nonempty (p : Path) : suffix p <> "" -> stem p <> "".
Proof.
  unfold suffix, stem, Str.slice_to, Str.len.
  destruct ((0 <? Str.rfind "." (name p))
            && (Str.rfind "." (name p) <? Z.of_nat (String.length (name p)) - 1))%Z eqn:C;
    [|done].
  intros _. apply andb_true_iff in C as [C1 C2].
  apply Z.ltb_lt in C1, C2.
  destruct (name p) as [|a nm]; [simpl in *; lia|].
  destruct (Z.to_nat (Str.rfind "." (String a nm))) eqn:E; [lia|done].
Qed.

Lemma supported_modern (k v : string) :
  dict_get FORMAT_MAPPING k = Some v ->
  exists e f, k = String "." e /\ v = String "." f
              /\ dict_get LIBREOFFICE_FILTERS v = Some f
              /\ e <> "" /\ f <> ""
              /\ Str.contains "." e = false /\ Str.contains "." f = false
              /\ Str.contains "/" e = false /\ Str.contains "/" f = false
              /\ k <> v.
Proof.
  rewrite dict_get_FORMAT_MAPPING.
  intros [[-> ->]|[[-> ->]|[-> ->]]]; eexists _, _; repeat split; done.
Qed.

(** ** What the handler can answer *)

Lemma unlink_raises_OSError (w : World) (p : Path) (s s' : State) (e : exn) :
  unlink w p s = (Raise e, s') -> is_OSError e = true.
Proof.
  unfold unlink.
  destruct (lookup_node (fs s) (resolve w p)) as [[d|m]|]; try (intros [= <- <-]; done).
  destruct (remove_entry (fs s) (resolve w p)); intros [= <- <-]; done.
Qed.

Lemma rmdir_raises_OSError (w : World) (p : Path) (s s' : State) (e : exn) :
  rmdir w p s = (Raise e, s') -> is_OSError e = true.
Proof.
  unfold rmdir.
  destruct (lookup_node (fs s) (resolve w p)) as [[d|m]|]; try (intros [= <- <-]; done).
  destruct (map_to_list m); [|intros [= <- <-]; done].
  destruct (remove_entry (fs s) (resolve w p)); intros [= <- <-]; done.
Qed.

Lemma write_bytes_raises_OSError (w : World) (p : Path) (data : list Byte.byte)
    (s s' : State) (e : exn) :
  write_bytes w p data s = (Raise e, s') -> is_OSError e = true.
Proof.
  unfold write_bytes.
  destruct (split_last (resolve w p)) as [[d nm]|]; [|intros [= <- <-]; done].
  destruct (lookup_node (fs s) d) as [[x|m]|]; try (intros [= <- <-]; done).
  destruct (m !! nm) as [[x|m']|]; try (intros [= <- <-]; done);
    destruct (write_fault w);
    destruct (update_dir _ (fs s) d); intros [= <- <-]; done.
Qed.

Lemma mkdtemp_raises_OSError (w : World) (s s' : State) (e : exn) :
  mkdtemp w s = (Raise e, s') -> is_OSError e = true.
Proof.
  unfold mkdtemp.
  destruct (lookup_node (fs s) (tempdir w)) as [[x|m]|]; try (intros [= <- <-]; done).
  destruct (List.find _ (candidate_names w)); [|intros [= <- <-]; done].
  destruct (update_dir _ (fs s) (tempdir w)); intros [= <- <-]; done.
Qed.

Lemma for_each_unlink_raises_OSError (w : World) (l : list Path) (s s' : State) (e : exn) :
  for_each l (unlink w) s = (Raise e, s') -> is_OSError e = true.
Proof.
  revert s. induction l as [|p l IH]; intros s; simpl; [done|].
  unfold bind. destruct (unlink w p s) as [[[]|e0] s1] eqn:E.
  - apply IH.
  - intros [= <- <-]. by eapply unlink_raises_OSError.
Qed.

Lemma cleanup_raises_OSError (w : World) (td : Path) (s s' : State) (e : exn) :
  cleanup w td s = (Raise e, s') -> is_OSError e = true.
Proof.
  unfold cleanup, bind.
  assert (exists l, glob_star w td s = (Ok l, s)) as [l ->].
  { unfold glob_star. destruct (lookup_node _ _) as [[x|m]|]; eauto. }
  destruct (for_each l (unlink w) s) as [[[]|e0] s1] eqn:E.
  - apply rmdir_raises_OSError.
  - intros [= <- <-]. by eapply for_each_unlink_raises_OSError.
Qed.

Lemma convert_body_fields (w : World)
    (converter : Path -> Path -> string -> M (option Path))
    (file : UploadFile) (ext output_ext output_format : string) (temp_dir : Path)
    (s s' : State) (response : FileResponse) :
  convert_body w converter file ext output_ext output_format temp_dir s
  = (Ok response, s') ->
  exists p s1,
    converter (temp_dir // (uuid4 w +:+ ext)) temp_dir output_format s1
    = (Ok (Some p), s')
    /\ response = {| path := str_of_Path p;
                     response_filename := stem (Path_of (filename file)) +:+ output_ext;
                     media_type := "application/octet-stream";
                     background := None |}
    /\ fst (exists_ w p s') = Ok true.
Proof.
  unfold convert_body, bind, ret, raise, exists_.
  destruct (write_bytes _ _ _ s) as [[[]|e] s1]; [|done].
  destruct (converter _ _ _ s1) as [[[p|]|e] s2] eqn:C; try done.
  destruct (lookup_node (fs s2) (resolve w p)) eqn:L; simpl; [|done].
  intros [= <- <-]. exists p, s1. by rewrite L.
Qed.

Lemma convert_body_real_raise_OSError (w : World) (file : UploadFile)
    (ext output_ext output_format : string) (temp_dir : Path) (s s' : State) (e : exn) :
  convert_body w (convert_with_libreoffice w) file ext output_ext output_format
    temp_dir s = (Raise e, s') ->
  is_OSError e = true \/ e = HTTPException 500 conversion_failed_detail.
Proof.
  unfold convert_body, bind, ret, raise, exists_.
  destruct (write_bytes _ _ _ s) as [[[]|e0] s1] eqn:W.
  - destruct (convert_with_libreoffice_returns w (temp_dir // (uuid4 w +:+ ext))
                temp_dir output_format s1) as (r & s2 & ->).
    destruct r as [p|]; [|intros [= <- <-]; auto].
    destruct (lookup_node (fs s2) (resolve w p)); simpl; [done|].
    intros [= <- <-]. auto.
  - intros [= <- <-]. left. by eapply write_bytes_raises_OSError.
Qed.

(** X1. The answers of [POST /convert]: a file response of the binary media
    type; the 400 of the extension check; the 500 "Conversion failed"; the
    500 that carries the text of an operating-system error met while
    staging; or an operating-system error that escapes as it is (from
    [mkdtemp] or from the teardown).  No other status code, no [KeyError]
    from the two table lookups, nothing from the invoker. *)
Theorem convert_file_answers (w : World) (file : UploadFile) (s : State) :
  match fst (convert_file w file s) with
  | Ok response =>
      media_type response = "application/octet-stream"
      /\ background response = None
  | Raise (HTTPException status detail) =>
      (status = 400 /\ detail = unsupported_detail)
      \/ (status = 500 /\ detail = conversion_failed_detail)
      \/ (status = 500
          /\ exists e, is_OSError e = true
                       /\ detail = JStr ("An error occurred: " +:+ str_of_exn e))
  | Raise e => is_OSError e = true
  end.
Proof.
  destruct (convert_file w file s) as [r s'] eqn:H. simpl.
  unfold convert_file in H.
  destruct (dict_in (Str.lower (suffix (Path_of (filename file)))) FORMAT_MAPPING) eqn:D.
  - destruct (supported_tables file D) as (oe & fm & H1 & H2).
    rewrite (convert_file_with_supported w _ file s oe fm H1 H2) in H.
    destruct (mkdtemp w s) as [[td|e] s1] eqn:T.
    + destruct (convert_body _ _ _ _ _ _ _ _) as [[resp|e] s2] eqn:B.
      * injection H as <- <-.
        apply convert_body_fields in B as (p & s0 & _ & -> & _). done.
      * destruct (cleanup w td s2) as [[[]|e'] s3] eqn:C.
        -- injection H as <- <-.
           apply convert_body_real_raise_OSError in B as [B| ->].
           ++ unfold reported. destruct e; try done; simpl; right; right; eauto.
           ++ simpl. auto.
        -- injection H as <- <-. apply cleanup_raises_OSError in C.
           by destruct e'.
    + injection H as <- <-. apply mkdtemp_raises_OSError in T. by destruct e.
  - rewrite convert_file_with_unsupported in H by done.
    injection H as <- <-. auto.
Qed.

(** X2. Whether an upload is rejected depends on its name up to ASCII case only,
    not on the world or the state: two names that lower-case to the same
    text have the same lower-cased extension, and one gets the 400 exactly
    when the other does. *)
Theorem rejection_ignores_case (w1 w2 : World) (file1 file2 : UploadFile)
    (s1 s2 : State) :
  Str.lower (filename file1) = Str.lower (filename file2) ->
  Str.lower (suffix (Path_of (filename file1)))
  = Str.lower (suffix (Path_of (filename file2)))
  /\ ((exists d, fst (convert_file w1 file1 s1) = Raise (HTTPException 400 d))
      <-> (exists d, fst (convert_file w2 file2 s2) = Raise (HTTPException 400 d))).
Proof.
  intros E.
  assert (Str.lower (suffix (Path_of (filename file1)))
          = Str.lower (suffix (Path_of (filename file2)))) as X.
  { by rewrite <- !suffix_lower, E. }
  split; [exact X|].
  assert (forall w file s,
            (exists d, fst (convert_file w file s) = Raise (HTTPException 400 d))
            <-> dict_in (Str.lower (suffix (Path_of (filename file)))) FORMAT_MAPPING
                = false) as K.
  { intros w file s. split.
    - intros [d H]. destruct (convert_file w file s) as [r s'] eqn:C.
      simpl in H. subst r. by apply convert_file_400 in C.
    - intros H. unfold convert_file. rewrite convert_file_with_unsupported by done.
      eauto. }
  rewrite !K. by rewrite X.
Qed.

Lemma rejection_ignores_case_witness :
  (exists d, fst (convert_file (Samples.world Samples.converts)
                    (Samples.upload "Notes.TXT") Samples.start)
             = Raise (HTTPException 400 d))
  <-> (exists d, fst (convert_file (Samples.world Samples.rejects)
                        (Samples.upload "notes.txt") Samples.start)
                 = Raise (HTTPException 400 d)).
Proof.
  apply (rejection_ignores_case (Samples.world Samples.converts)
           (Samples.world Samples.rejects) (Samples.upload "Notes.TXT")
           (Samples.upload "notes.txt") Samples.start Samples.start).
  reflexivity.
Defined.

(** X3. A file response is only returned for a path that is on disk when the
    handler returns. *)
Theorem served_file_is_on_disk (w : World)
    (converter : Path -> Path -> string -> M (option Path))
    (file : UploadFile) (s s' : State) (response : FileResponse) :
  convert_file_with w converter file s = (Ok response, s') ->
  exists p, path response = str_of_Path p /\ fst (exists_ w p s') = Ok true.
Proof.
  intros H.
  destruct (dict_in (Str.lower (suffix (Path_of (filename file)))) FORMAT_MAPPING) eqn:D.
  - destruct (supported_tables file D) as (oe & fm & H1 & H2).
    rewrite (convert_file_with_supported w converter file s oe fm H1 H2) in H.
    destruct (mkdtemp w s) as [[td|e] s1]; [|done].
    destruct (convert_body _ _ _ _ _ _ _ _) as [[resp|e] s2] eqn:B.
    + injection H as -> ->.
      apply convert_body_fields in B as (p & s0 & _ & -> & X). eauto.
    + by destruct (cleanup w td s2) as [[[]|e'] s3].
  - by rewrite convert_file_with_unsupported in H.
Qed.

Lemma served_file_is_on_disk_witness :
  exists p,
    "/tmp/tmpk3v_9qzt/6f1c2a9e-0b7d-4e55-9c3a-2d8e4f5a6b7c.docx" = str_of_Path p
    /\ fst (exists_ (Samples.world Samples.converts) p
              (snd (convert_file (Samples.world Samples.converts)
                      (Samples.upload "test.doc") Samples.start))) = Ok true.
Proof.
  apply (served_file_is_on_disk (Samples.world Samples.converts)
           (convert_with_libreoffice (Samples.world Samples.converts))
           (Samples.upload "test.doc") Samples.start _
           {| path := "/tmp/tmpk3v_9qzt/6f1c2a9e-0b7d-4e55-9c3a-2d8e4f5a6b7c.docx";
              response_filename := "test.docx";
              media_type := "application/octet-stream";
              background := None |}).
  vm_compute. reflexivity.
Defined.

(** X4. The file name of a successful response is a single path component that
    parses back into the stem of the upload and the modern extension. *)
Theorem response_filename_parses_back (w : World)
    (converter : Path -> Path -> string -> M (option Path))
    (file : UploadFile) (s s' : State) (response : FileResponse) :
  convert_file_with w converter file s = (Ok response, s') ->
  exists modern,
    dict_get FORMAT_MAPPING (Str.lower (suffix (Path_of (filename file)))) = Some modern
    /\ Path_of (response_filename response)
       = {| anchored := false; parts := [response_filename response] |}
    /\ stem (Path_of (response_filename response)) = stem (Path_of (filename file))
    /\ suffix (Path_of (response_filename response)) = modern.
Proof.
  intros H.
  destruct (response_filename_of_success _ _ _ _ _ _ H) as (modern & G & F).
  exists modern. split; [exact G|]. rewrite F.
  destruct (supported_modern _ _ G) as (e & f & K & -> & _ & _ & Nf & _ & Df & _ & Sf & _).
  assert (stem (Path_of (filename file)) <> "") as U.
  { apply suffix_stem_nonempty. intros X. rewrite X in K. done. }
  assert (Path_of (stem (Path_of (filename file)) +:+ String "." f)
          = {| anchored := false;
               parts := [stem (Path_of (filename file)) +:+ String "." f] |}) as P.
  { apply Path_of_single; [|by apply keep_part_dotted].
    rewrite contains_append, stem_Path_of_no_slash. simpl. exact Sf. }
  split; [exact P|].
  apply stem_suffix_of_name; try done. by rewrite P.
Qed.

Lemma response_filename_parses_back_witness :
  stem (Path_of "Quarterly.Report.docx") = stem (Path_of "Quarterly.Report.DOC").
Proof.
  destruct (response_filename_parses_back (Samples.world Samples.converts)
              (convert_with_libreoffice (Samples.world Samples.converts))
              (Samples.upload "Quarterly.Report.DOC") Samples.start
              (snd (convert_file (Samples.world Samples.converts)
                      (Samples.upload "Quarterly.Report.DOC") Samples.start))
              {| path := "/tmp/tmpk3v_9qzt/6f1c2a9e-0b7d-4e55-9c3a-2d8e4f5a6b7c.docx";
                 response_filename := "Quarterly.Report.docx";
                 media_type := "application/octet-stream";
                 background := None |})
    as (modern & _ & _ & S & _).
  - vm_compute. reflexivity.
  - exact S.
Defined.

(** ** What the invoker prints *)

(** X5. The invoker prints at most one line: the converter's standard error
    after an exit code other than zero, a fixed line after a timeout, the
    text of any other exception.  After exit code zero it prints nothing,
    also when the output file is missing and [None] is returned. *)
Theorem invoker_console (w : World) (input_path output_dir : Path) (fmt : string)
    (s : State) :
  let outcome := tool w (convert_command w input_path output_dir fmt) 60 (fs s) in
  console (snd (convert_with_libreoffice w input_path output_dir fmt s))
  = console s
    ++ match fst outcome with
       | Completed c =>
           if (returncode c =? 0)%Z then []
           else ["LibreOffice conversion failed: " +:+ stderr c]
       | RunRaised (TimeoutExpired _) => ["LibreOffice conversion timed out"]
       | RunRaised e => ["Error during conversion: " +:+ str_of_exn e]
       end.
Proof.
  intros outcome. unfold convert_with_libreoffice. unfold_monad. fold outcome.
  destruct outcome as [[c|e] t']; simpl.
  - destruct (returncode c =? 0)%Z; simpl; [|done].
    rewrite app_nil_r.
    by destruct (lookup_node t' _).
  - by destruct e.
Qed.

(** ** More on the file-system tree *)

Lemma update_dir_ext (f g : gmap string node -> gmap string node)
    (t : node) (p : list string) (m : gmap string node) :
  lookup_node t p = Some (Dir m) -> f m = g m -> update_dir f t p = update_dir g t p.
Proof.
  revert t. induction p as [|c p IH]; intros [x|m0]; simpl; try done.
  - intros [= ->] E. by rewrite E.
  - destruct (m0 !! c) as [n|]; [|done]. intros L E. by rewrite (IH n L E).
Qed.

Lemma update_dir_twice (f g : gmap string node -> gmap string node)
    (t t1 : node) (p : list string) :
  update_dir f t p = Some t1 ->
  update_dir g t1 p = update_dir (fun m => g (f m)) t p.
Proof.
  revert t t1. induction p as [|c p IH]; intros [x|m] t1; simpl; try done.
  - by intros [= <-].
  - destruct (m !! c) as [n|] eqn:E; [|done].
    destruct (update_dir f n p) as [n1|] eqn:U; [|done].
    intros [= <-]. simpl. rewrite lookup_insert_eq, (IH _ _ U).
    destruct (update_dir (fun m0 => g (f m0)) n p); [|done].
    by rewrite insert_insert_eq.
Qed.

Lemma update_dir_id (f : gmap string node -> gmap string node)
    (t : node) (p : list string) (m : gmap string node) :
  lookup_node t p = Some (Dir m) -> f m = m -> update_dir f t p = Some t.
Proof.
  revert t. induction p as [|c p IH]; intros [x|m0]; simpl; try done.
  - intros [= ->] E. by rewrite E.
  - destruct (m0 !! c) as [n|] eqn:K; [|done]. intros L E.
    rewrite (IH n L E). by rewrite insert_id.
Qed.

Lemma update_dir_snoc (f : gmap string node -> gmap string node)
    (t : node) (p : list string) (k : string) (x mk : gmap string node) :
  lookup_node t p = Some (Dir x) -> x !! k = Some (Dir mk) ->
  update_dir f t (p ++ [k]) = update_dir (<[k := Dir (f mk)]>) t p.
Proof.
  revert t. induction p as [|c p IH]; intros [y|m0]; simpl; try done.
  - intros [= ->] K. by rewrite K.
  - destruct (m0 !! c) as [n|] eqn:E; [|done]. intros L K.
    by rewrite (IH n L K).
Qed.

(** Making a directory, writing one file into it, unlinking the file and
    removing the directory gives back the tree one started from. *)
Lemma workspace_round_trip (t t1 t2 t3 t4 : node) (tmp : list string)
    (m : gmap string node) (n x : string) (v : node) :
  lookup_node t tmp = Some (Dir m) -> m !! n = None ->
  update_dir (<[n := Dir ∅]>) t tmp = Some t1 ->
  update_dir (<[x := v]>) t1 (tmp ++ [n]) = Some t2 ->
  update_dir (delete x) t2 (tmp ++ [n]) = Some t3 ->
  update_dir (delete n) t3 tmp = Some t4 ->
  t4 = t.
Proof.
  intros L F U1 U2 U3 U4.
  pose proof (update_dir_lookup _ _ _ _ U1) as (m1 & L0 & L1).
  assert (m1 = m) as -> by congruence.
  rewrite (update_dir_snoc _ t1 tmp n _ ∅ L1) in U2 by apply lookup_insert_eq.
  pose proof (update_dir_lookup _ _ _ _ U2) as (m2 & L1' & L2).
  rewrite (update_dir_snoc _ t2 tmp n _ (<[x := v]> ∅) L2) in U3
    by apply lookup_insert_eq.
  rewrite (update_dir_twice _ _ _ _ _ U2) in U3.
  rewrite (update_dir_twice _ _ _ _ _ U1) in U3.
  rewrite (update_dir_twice _ _ _ _ _ U3) in U4.
  rewrite (update_dir_id _ t tmp m L) in U4; [congruence|].
  rewrite !delete_insert_eq. by apply delete_id.
Qed.

(** An update leaves alone every path that parts ways with the updated
    one, or with one of its entries that the update keeps. *)
Lemma diverges_snoc (p q : list string) (k : string) :
  diverges p q = true -> diverges (p ++ [k]) q = true.
Proof.
  revert q. induction p as [|x p IH]; intros [|y q]; simpl; try done.
  destruct (String.eqb x y); [apply IH|done].
Qed.

Lemma remove_entry_frame (t t' : node) (ap q : list string) :
  remove_entry t ap = Some t' -> diverges ap q = true ->
  lookup_node t' q = lookup_node t q.
Proof.
  unfold remove_entry. destruct (split_last ap) as [[d nm]|] eqn:E; [|done].
  apply split_last_Some in E as ->. revert t t' q.
  induction d as [|c d IH]; intros [x|m] t' [|y q]; simpl; try done.
  - intros [= <-]. destruct (String.eqb nm y) eqn:E; [done|]. intros _.
    apply String.eqb_neq in E. simpl. by rewrite lookup_delete_ne.
  - destruct (m !! c) as [n|] eqn:K; [|done].
    destruct (update_dir (delete nm) n d) as [n'|] eqn:U; [|done].
    intros [= <-]. destruct (String.eqb c y) eqn:E.
    + apply String.eqb_eq in E as <-. intros D. simpl.
      rewrite lookup_insert_eq, K. by apply IH.
    + intros _. apply String.eqb_neq in E. simpl. by rewrite lookup_insert_ne.
Qed.

(** ** The life of a workspace, step by step *)

Lemma mkdtemp_exact (w : World) (s s1 : State) (td : Path) :
  mkdtemp w s = (Ok td, s1) ->
  exists m n t1,
    lookup_node (fs s) (tempdir w) = Some (Dir m)
    /\ m !! n = None
    /\ td = {| anchored := true; parts := tempdir w ++ [n] |}
    /\ update_dir (<[n := Dir ∅]>) (fs s) (tempdir w) = Some t1
    /\ s1 = set_fs t1 s.
Proof.
  unfold mkdtemp.
  destruct (lookup_node (fs s) (tempdir w)) as [[x|m]|] eqn:L; try done.
  destruct (List.find _ (candidate_names w)) as [nm|] eqn:F; [|done].
  destruct (update_dir _ (fs s) (tempdir w)) as [t'|] eqn:U; [|done].
  intros [= <- <-]. apply find_some in F as [_ F].
  exists m, ("tmp" +:+ nm), t'. repeat split; try done.
  by destruct (m !! ("tmp" +:+ nm)).
Qed.

Lemma resolve_anchored (w : World) (ps : list string) :
  resolve w {| anchored := true; parts := ps |} = ps.
Proof. done. Qed.

Lemma write_bytes_child (w : World) (td : Path) (x : string) (data : list Byte.byte)
    (s : State) (m : gmap string node) :
  lookup_node (fs s) (resolve w td) = Some (Dir m) -> m !! x = None ->
  exists t2,
    update_dir (<[x := File (match write_fault w with Some _ => [] | None => data end)]>)
      (fs s) (resolve w td) = Some t2
    /\ write_bytes w (child td x) data s
       = (match write_fault w with Some msg => Raise (OSError msg) | None => Ok tt end,
          set_fs t2 s).
Proof.
  intros L K. unfold write_bytes.
  rewrite resolve_child, split_last_snoc, L, K.
  destruct (write_fault w) as [msg|].
  - destruct (update_dir_is_Some (<[x := File []]>) _ _ _ L) as [t2 U].
    rewrite U. eauto.
  - destruct (update_dir_is_Some (<[x := File data]>) _ _ _ L) as [t2 U].
    rewrite U. eauto.
Qed.

(** Tearing down a workspace that holds the staged upload and nothing else
    gives back the disk of before the request. *)
Lemma teardown_of_staged (w : World) (tmp : list string) (n x : string)
    (d : list Byte.byte) (t t1 t2 : node) (m : gmap string node) (s2 : State) :
  lookup_node t tmp = Some (Dir m) -> m !! n = None ->
  update_dir (<[n := Dir ∅]>) t tmp = Some t1 ->
  update_dir (<[x := File d]>) t1 (tmp ++ [n]) = Some t2 ->
  fs s2 = t2 ->
  cleanup w {| anchored := true; parts := tmp ++ [n] |} s2
  = (Ok tt, {| fs := t; console := console s2 |}).
Proof.
  intros L F U1 U2 E. set (td := {| anchored := true; parts := tmp ++ [n] |}).
  pose proof (update_dir_lookup _ _ _ _ U1) as (m1 & L0 & L1).
  assert (lookup_node t1 (tmp ++ [n]) = Some (Dir ∅)) as W1.
  { rewrite lookup_node_app, L1. simpl. by rewrite lookup_insert_eq. }
  pose proof (update_dir_lookup _ _ _ _ U2) as (m2 & W1' & W2).
  assert (m2 = ∅) as -> by congruence.
  assert (lookup_node (fs s2) (resolve w td) = Some (Dir (<[x := File d]> ∅))) as G
    by (by rewrite E).
  destruct (update_dir_is_Some (delete x) _ _ _ G) as [t3 U3].
  pose proof (update_dir_lookup _ _ _ _ U3) as (m3 & G' & L3).
  assert (m3 = <[x := File d]> ∅) as -> by congruence.
  rewrite delete_insert_eq, delete_empty in L3.
  assert (exists t4, update_dir (delete n) t3 tmp = Some t4) as [t4 U4].
  { change (resolve w td) with (tmp ++ [n]) in L3.
    apply lookup_node_snoc in L3 as (md & Ld & _).
    by eapply update_dir_is_Some. }
  assert (unlink w (child td x) s2 = (Ok tt, set_fs t3 s2)) as X.
  { unfold unlink, remove_entry.
    rewrite resolve_child, split_last_snoc, lookup_node_app, G. simpl.
    by rewrite lookup_insert_eq, U3. }
  assert (rmdir w td (set_fs t3 s2) = (Ok tt, set_fs t4 (set_fs t3 s2))) as R.
  { unfold rmdir, remove_entry. simpl fs. rewrite L3, map_to_list_empty.
    change (resolve w td) with (tmp ++ [n]). by rewrite split_last_snoc, U4. }
  unfold cleanup, bind. rewrite (glob_star_dir w td s2 _ G).
  rewrite insert_empty, map_to_list_singleton. simpl. unfold bind. rewrite X.
  unfold ret. rewrite R. unfold set_fs; simpl.
  change (resolve w td) with (tmp ++ [n]) in U3. rewrite E in U3.
  by rewrite (workspace_round_trip t t1 t2 t3 t4 tmp m n x (File d) L F U1 U2 U3 U4).
Qed.

Lemma name_child (p : Path) (x : string) : name (child p x) = x.
Proof. unfold name, child; simpl. apply last_last. Qed.

Lemma staged_name_clean (u e : string) :
  Str.contains "/" u = false -> Str.contains "/" e = false -> e <> "" ->
  Str.contains "/" (u +:+ String "." e) = false
  /\ keep_part (u +:+ String "." e) = true.
Proof.
  intros U E N. split; [|by apply keep_part_dotted].
  rewrite contains_append, U. simpl. exact E.
Qed.

(** Where the converter is expected to put its output for an input staged
    as [<u>.<e>]: at [<u>.<f>] in the output directory. *)
Lemma expected_output_path (td : Path) (u e f : string) :
  u <> "" -> Str.contains "/" u = false ->
  e <> "" -> Str.contains "." e = false ->
  f <> "" -> Str.contains "/" f = false ->
  td // (stem (child td (u +:+ String "." e)) +:+ "." +:+ f)
  = child td (u +:+ String "." f).
Proof.
  intros U Us E Ed F Fs.
  destruct (stem_suffix_of_name (child td (u +:+ String "." e)) u e) as [-> _];
    try done; [apply name_child|].
  change ("." +:+ f) with (String "." f).
  destruct (staged_name_clean u f Us Fs F) as [C K].
  by apply truediv_single.
Qed.

Section Staged.
Variable w : World.
Variable file : UploadFile.
Variables (s s1 : State) (td : Path) (oext fmt : string).

Local Abbreviation file_ext := (Str.lower (suffix (Path_of (filename file)))).

Hypothesis supported : dict_get FORMAT_MAPPING file_ext = Some oext.
Hypothesis filter : dict_get LIBREOFFICE_FILTERS oext = Some fmt.
Hypothesis uuid_clean : Str.contains "/" (uuid4 w) = false.
Hypothesis made : mkdtemp w s = (Ok td, s1).

Lemma staged_path : td // (uuid4 w +:+ file_ext) = child td (uuid4 w +:+ file_ext).
Proof.
  destruct (supported_modern _ _ supported)
    as (e & f & -> & _ & _ & Ne & _ & _ & _ & Se & _ & _).
  destruct (staged_name_clean (uuid4 w) e uuid_clean Se Ne) as [C K].
  by apply truediv_single.
Qed.

Lemma tables_agree : oext = String "." fmt.
Proof.
  destruct (supported_modern _ _ supported) as (e & f & _ & -> & F & _).
  congruence.
Qed.

(** How staging ends: with the upload on disk, or with the system's error
    and an empty file. *)
Lemma staging (data : list Byte.byte) :
  exists m n t1 t2,
    lookup_node (fs s) (tempdir w) = Some (Dir m) /\ m !! n = None
    /\ td = {| anchored := true; parts := tempdir w ++ [n] |}
    /\ update_dir (<[n := Dir ∅]>) (fs s) (tempdir w) = Some t1
    /\ update_dir (<[uuid4 w +:+ file_ext
                     := File (match write_fault w with Some _ => [] | None => data end)]>)
         t1 (tempdir w ++ [n]) = Some t2
    /\ write_bytes w (td // (uuid4 w +:+ file_ext)) data s1
       = (match write_fault w with Some msg => Raise (OSError msg) | None => Ok tt end,
          {| fs := t2; console := console s |}).
Proof.
  destruct (mkdtemp_exact w s s1 td made) as (m & n & t1 & L & F & E & U & S1).
  pose proof (mkdtemp_inv w s s1 _ made) as (_ & n' & _ & W).
  destruct (write_bytes_child w td (uuid4 w +:+ file_ext) data s1 ∅ W)
    as (t2 & U2 & X); [done|].
  exists m, n, t1, t2. rewrite staged_path, X. subst s1 td.
  repeat split; try done.
Qed.

End Staged.

(** The handler after a failure of the body on a workspace that holds the
    staged file only: the error that belongs to the failure, and the disk
    of before the request. *)
Lemma handler_after_staged_failure (w : World)
    (converter : Path -> Path -> string -> M (option Path))
    (file : UploadFile) (s s1 s2 : State) (td : Path) (oext fmt : string) (e : exn)
    (m : gmap string node) (n : string) (t1 t2 : node) (d : list Byte.byte) :
  let ext := Str.lower (suffix (Path_of (filename file))) in
  dict_get FORMAT_MAPPING ext = Some oext ->
  dict_get LIBREOFFICE_FILTERS oext = Some fmt ->
  mkdtemp w s = (Ok td, s1) ->
  lookup_node (fs s) (tempdir w) = Some (Dir m) -> m !! n = None ->
  td = {| anchored := true; parts := tempdir w ++ [n] |} ->
  update_dir (<[n := Dir ∅]>) (fs s) (tempdir w) = Some t1 ->
  update_dir (<[uuid4 w +:+ ext := File d]>) t1 (tempdir w ++ [n]) = Some t2 ->
  convert_body w converter file ext oext fmt td s1 = (Raise e, s2) ->
  fs s2 = t2 ->
  convert_file_with w converter file s
  = (Raise (reported e), {| fs := fs s; console := console s2 |}).
Proof.
  intros ext H1 H2 T L F E U1 U2 B X.
  rewrite (convert_file_with_supported w converter file s _ _ H1 H2), T.
  fold ext. rewrite B. subst td.
  by rewrite (teardown_of_staged w (tempdir w) n _ d (fs s) t1 t2 m s2 L F U1 U2 X).
Qed.

(** ** Staging *)



(** X7. An error reported while staging the upload is answered with the 500
    that carries its text; the converter is not called, and the state, the
    disk included, is the one of before the request. *)
Theorem staging_fault_is_500 (w : World)
    (converter : Path -> Path -> string -> M (option Path))
    (file : UploadFile) (s s1 : State) (td : Path) (oext msg : string) :
  dict_get FORMAT_MAPPING (Str.lower (suffix (Path_of (filename file)))) = Some oext ->
  Str.contains "/" (uuid4 w) = false ->
  write_fault w = Some msg ->
  mkdtemp w s = (Ok td, s1) ->
  convert_file_with w converter file s
  = (Raise (HTTPException 500 (JStr ("An error occurred: " +:+ msg))), s).
Proof.
  intros H1 C W T.
  destruct (filters_cover_mapping _ _ H1) as (fmt & H2 & _).
  destruct (staging w file s s1 td oext H1 C T (content file))
    as (m & n & t1 & t2 & L & F & E & U1 & U2 & X).
  rewrite W in X, U2.
  rewrite (handler_after_staged_failure w converter file s s1
             {| fs := t2; console := console s |} td oext fmt (OSError msg)
             m n t1 t2 [] H1 H2 T L F E U1 U2); [by destruct s| |done].
  unfold convert_body, bind. by rewrite X.
Qed.

Lemma staging_fault_is_500_witness :
  convert_file (Samples.disk_full (Samples.world Samples.converts))
    (Samples.upload "test.doc") Samples.start
  = (Raise (HTTPException 500
              (JStr ("An error occurred: " +:+ "[Errno 28] No space left on device"))),
     Samples.start).
Proof.
  apply (staging_fault_is_500 (Samples.disk_full (Samples.world Samples.converts))
           (convert_with_libreoffice (Samples.disk_full (Samples.world Samples.converts)))
           (Samples.upload "test.doc") Samples.start
           (snd (mkdtemp (Samples.disk_full (Samples.world Samples.converts))
                   Samples.start))
           {| anchored := true; parts := Samples.workspace |} ".docx");
    reflexivity.
Defined.

(** ** The handler with the real invoker *)

(** The invoker on the staged upload: it expects the output under the name
    of the staged file with the modern extension. *)
Lemma invoker_on_staged (w : World) (td : Path) (e f : string) (s2 : State) :
  uuid4 w <> "" -> Str.contains "/" (uuid4 w) = false ->
  e <> "" -> Str.contains "." e = false ->
  f <> "" -> Str.contains "/" f = false ->
  let input_path := child td (uuid4 w +:+ String "." e) in
  let outcome := tool w (convert_command w input_path td f) 60 (fs s2) in
  let expected := child td (uuid4 w +:+ String "." f) in
  let on_disk := match lookup_node (snd outcome) (resolve w expected) with
                 | Some _ => true
                 | None => false
                 end in
  exists out,
    convert_with_libreoffice w input_path td f s2
    = (Ok (if exited_zero (fst outcome) && on_disk then Some expected else None),
       {| fs := snd outcome; console := out |}).
Proof.
  intros U Us E Ed F Fs input_path outcome expected on_disk.
  subst input_path outcome expected on_disk.
  pose proof (convert_with_libreoffice_run w (child td (uuid4 w +:+ String "." e))
                td f s2) as X.
  cbv zeta in X.
  by rewrite (expected_output_path td (uuid4 w) e f U Us E Ed F Fs) in X.
Qed.

(** X8. When the external program never writes to the disk, [POST /convert]
    never returns a file, and whatever it answers the disk is afterwards
    exactly the one of before the request: the workspace and the staged
    upload are gone, and nothing else has changed. *)
Theorem failed_request_leaves_no_trace (w : World) (file : UploadFile) (s : State) :
  (forall cmd t, snd (tool w cmd 60 t) = t) ->
  uuid4 w <> "" -> Str.contains "/" (uuid4 w) = false ->
  fs (snd (convert_file w file s)) = fs s
  /\ forall response, fst (convert_file w file s) <> Ok response.
Proof.
  intros Q U Us. unfold convert_file.
  destruct (dict_in (Str.lower (suffix (Path_of (filename file)))) FORMAT_MAPPING) eqn:D;
    [|by rewrite convert_file_with_unsupported].
  destruct (supported_tables file D) as (oext & fmt & H1 & H2).
  destruct (mkdtemp w s) as [[td|e0] s1] eqn:T.
  - destruct (staging w file s s1 td oext H1 Us T (content file))
      as (m & n & t1 & t2 & L & F & E & U1 & U2 & X).
    destruct (write_fault w) as [msg|] eqn:W.
    + rewrite (handler_after_staged_failure w _ file s s1
                 {| fs := t2; console := console s |} td oext fmt (OSError msg)
                 m n t1 t2 [] H1 H2 T L F E U1 U2); [done| |done].
      unfold convert_body, bind. by rewrite X.
    + destruct (supported_modern _ _ H1)
        as (e & f & K & Ko & Kf & Ne & Nf & De & _ & _ & Sf & NE).
      assert (fmt = f) as -> by congruence.
      rewrite (staged_path w file td oext H1 Us) in X.
      destruct (invoker_on_staged w td e f {| fs := t2; console := console s |}
                  U Us Ne De Nf Sf) as [out I].
      rewrite <- K in I. simpl fs in I. rewrite (Q _ t2) in I.
      assert (lookup_node t2 (resolve w (child td (uuid4 w +:+ String "." f))) = None)
        as G.
      { rewrite resolve_child. subst td. rewrite resolve_anchored.
        pose proof (update_dir_lookup _ _ _ _ U1) as (m1 & _ & L1).
        pose proof (update_dir_lookup _ _ _ _ U2) as (m2 & W1 & W2).
        rewrite lookup_node_app, L1 in W1. simpl in W1. rewrite lookup_insert_eq in W1.
        injection W1 as <-. rewrite lookup_node_app, W2. simpl.
        rewrite lookup_insert_ne; [done|].
        intros Y. apply NE. rewrite Ko.
        by apply (inj (String.app (uuid4 w))). }
      rewrite G, andb_false_r in I.
      rewrite (handler_after_staged_failure w _ file s s1
                 {| fs := t2; console := out |} td oext f
                 (HTTPException 500 conversion_failed_detail)
                 m n t1 t2 (content file) H1 H2 T L F E U1 U2); [done| |done].
      unfold convert_body, bind. rewrite (staged_path w file td oext H1 Us), X.
      by rewrite I.
  - rewrite (convert_file_with_supported w _ file s oext fmt H1 H2), T.
    apply mkdtemp_inv in T as (_ & _ & ->). done.
Qed.

Lemma failed_request_leaves_no_trace_witness :
  fs (snd (convert_file (Samples.world Samples.rejects) (Samples.upload "test.doc")
             Samples.start)) = Samples.disk.
Proof.
  apply (failed_request_leaves_no_trace (Samples.world Samples.rejects)
           (Samples.upload "test.doc") Samples.start); [reflexivity|discriminate|reflexivity].
Defined.

(** X9. When the upload is supported, the workspace made and the upload staged,
    and the external program exits with code zero leaving a file named by
    the staging identifier and the modern extension in the workspace,
    [POST /convert] returns the response for that file, named after the
    upload. *)
Theorem conversion_succeeds (w : World) (file : UploadFile) (s s1 s2 : State)
    (td : Path) (oext fmt : string) (c : CompletedProcess) :
  let ext := Str.lower (suffix (Path_of (filename file))) in
  let input_path := td // (uuid4 w +:+ ext) in
  let outcome := tool w (convert_command w input_path td fmt) 60 (fs s2) in
  dict_get FORMAT_MAPPING ext = Some oext ->
  dict_get LIBREOFFICE_FILTERS oext = Some fmt ->
  uuid4 w <> "" -> Str.contains "/" (uuid4 w) = false ->
  mkdtemp w s = (Ok td, s1) ->
  write_bytes w input_path (content file) s1 = (Ok tt, s2) ->
  fst outcome = Completed c -> returncode c = 0 ->
  fst (exists_ w (child td (uuid4 w +:+ oext)) (set_fs (snd outcome) s2)) = Ok true ->
  exists s',
    convert_file w file s
    = (Ok {| path := str_of_Path (child td (uuid4 w +:+ oext));
             response_filename := stem (Path_of (filename file)) +:+ oext;
             media_type := "application/octet-stream";
             background := None |}, s')
    /\ fs s' = snd outcome.
Proof.
  intros ext input_path outcome H1 H2 U Us T W O R X.
  subst ext input_path outcome.
  destruct (supported_modern _ _ H1)
    as (e & f & K & Ko & Kf & Ne & Nf & De & _ & _ & Sf & NE).
  assert (fmt = f) as -> by congruence.
  unfold convert_file.
  rewrite (convert_file_with_supported w _ file s oext f H1 H2), T.
  unfold convert_body, bind. rewrite W.
  destruct (invoker_on_staged w td e f s2 U Us Ne De Nf Sf) as [out I].
  rewrite (staged_path w file td oext H1 Us) in O, X |- *.
  rewrite K in O, X |- *. rewrite <- Ko in I. rewrite I.
  unfold exists_ in X. simpl fs in X.
  destruct (lookup_node _ (resolve w (child td (uuid4 w +:+ oext))))
    eqn:G; [|done].
  rewrite O. simpl. rewrite R. simpl. unfold exists_, ret. simpl fs. rewrite G. simpl.
  eauto.
Qed.

Lemma conversion_succeeds_witness :
  exists s',
    convert_file (Samples.world Samples.converts) (Samples.upload "Budget.XLS")
      Samples.start
    = (Ok {| path := str_of_Path
                       (child {| anchored := true; parts := Samples.workspace |}
                          (uuid4 (Samples.world Samples.converts) +:+ ".xlsx"));
             response_filename := stem (Path_of "Budget.XLS") +:+ ".xlsx";
             media_type := "application/octet-stream";
             background := None |}, s').
Proof.
  pose (w := Samples.world Samples.converts).
  pose (td := {| anchored := true; parts := Samples.workspace |}).
  pose (s1 := snd (mkdtemp w Samples.start)).
  pose (s2 := snd (write_bytes w (td // (uuid4 w +:+ ".xls"))
                     (content (Samples.upload "Budget.XLS")) s1)).
  destruct (conversion_succeeds w (Samples.upload "Budget.XLS") Samples.start s1 s2 td
              ".xlsx" "xlsx" {| returncode := 0; stdout := ""; stderr := "" |})
    as (s' & E & _).
  - reflexivity.
  - reflexivity.
  - discriminate.
  - reflexivity.
  - vm_compute. reflexivity.
  - vm_compute. reflexivity.
  - vm_compute. reflexivity.
  - reflexivity.
  - vm_compute. reflexivity.
  - exists s'. exact E.
Defined.

(** X10. With the real invoker, a file response always points into the
    workspace of the request, at the staging identifier followed by the
    modern extension, and that file is on disk. *)
Theorem served_path_is_in_workspace (w : World) (file : UploadFile) (s s' : State)
    (response : FileResponse) :
  uuid4 w <> "" -> Str.contains "/" (uuid4 w) = false ->
  convert_file w file s = (Ok response, s') ->
  exists td s1 oext,
    mkdtemp w s = (Ok td, s1)
    /\ dict_get FORMAT_MAPPING (Str.lower (suffix (Path_of (filename file)))) = Some oext
    /\ path response = str_of_Path (child td (uuid4 w +:+ oext))
    /\ fst (exists_ w (child td (uuid4 w +:+ oext)) s') = Ok true.
Proof.
  intros U Us H. unfold convert_file in H.
  destruct (dict_in (Str.lower (suffix (Path_of (filename file)))) FORMAT_MAPPING) eqn:D;
    [|by rewrite convert_file_with_unsupported in H].
  destruct (supported_tables file D) as (oext & fmt & H1 & H2).
  rewrite (convert_file_with_supported w _ file s oext fmt H1 H2) in H.
  destruct (mkdtemp w s) as [[td|e0] s1] eqn:T; [|done].
  destruct (convert_body _ _ _ _ _ _ _ _) as [[resp|e0] s2] eqn:B;
    [|by destruct (cleanup w td s2) as [[[]|e'] s3]].
  injection H as -> ->.
  apply convert_body_fields in B as (p & s0 & C & -> & X).
  destruct (supported_modern _ _ H1)
    as (e & f & K & Ko & Kf & Ne & Nf & De & _ & _ & Sf & NE).
  assert (fmt = f) as -> by congruence.
  rewrite (staged_path w file td oext H1 Us), K in C.
  destruct (invoker_on_staged w td e f s0 U Us Ne De Nf Sf) as [out I].
  rewrite I in C. rewrite <- Ko in C.
  exists td, s1, oext. repeat split; try done.
  - destruct (_ && _); [|done]. by injection C as <- _.
  - destruct (_ && _); [|done]. by injection C as <- _.
Qed.

Lemma served_path_is_in_workspace_witness :
  exists td s1 oext,
    mkdtemp (Samples.world Samples.converts) Samples.start = (Ok td, s1)
    /\ dict_get FORMAT_MAPPING (Str.lower (suffix (Path_of "test.doc"))) = Some oext
    /\ "/tmp/tmpk3v_9qzt/6f1c2a9e-0b7d-4e55-9c3a-2d8e4f5a6b7c.docx"
       = str_of_Path (child td (uuid4 (Samples.world Samples.converts) +:+ oext))
    /\ fst (exists_ (Samples.world Samples.converts)
              (child td (uuid4 (Samples.world Samples.converts) +:+ oext))
              (snd (convert_file (Samples.world Samples.converts)
                      (Samples.upload "test.doc") Samples.start))) = Ok true.
Proof.
  apply (served_path_is_in_workspace (Samples.world Samples.converts)
           (Samples.upload "test.doc") Samples.start _
           {| path := "/tmp/tmpk3v_9qzt/6f1c2a9e-0b7d-4e55-9c3a-2d8e4f5a6b7c.docx";
              response_filename := "test.docx";
              media_type := "application/octet-stream";
              background := None |});
    [discriminate|reflexivity|vm_compute; reflexivity].
Defined.

(** ** More on the teardown *)

(** X11. When the workspace is no longer on disk at teardown, the teardown
    unlinks nothing and [rmdir] raises [FileNotFoundError]: that exception
    reaches the caller in place of the error of the request. *)
Theorem teardown_without_workspace (w : World)
    (converter : Path -> Path -> string -> M (option Path))
    (file : UploadFile) (s s1 s2 : State) (td : Path) (oext fmt : string) (e : exn) :
  let ext := Str.lower (suffix (Path_of (filename file))) in
  dict_get FORMAT_MAPPING ext = Some oext ->
  dict_get LIBREOFFICE_FILTERS oext = Some fmt ->
  mkdtemp w s = (Ok td, s1) ->
  convert_body w converter file ext oext fmt td s1 = (Raise e, s2) ->
  lookup_node (fs s2) (resolve w td) = None ->
  convert_file_with w converter file s = (Raise (ENOENT td), s2).
Proof.
  intros ext H1 H2 T B G.
  rewrite (convert_file_with_supported w converter file s _ _ H1 H2), T.
  fold ext. rewrite B.
  unfold cleanup, bind, glob_star, rmdir. rewrite G. simpl. unfold bind, ret.
  by rewrite G.
Qed.

Lemma teardown_without_workspace_witness :
  fst (convert_file (Samples.world Samples.wipes) (Samples.upload "test.doc")
         Samples.start)
  = Raise (FileNotFoundError
             "[Errno 2] No such file or directory: '/tmp/tmpk3v_9qzt'").
Proof.
  pose (w := Samples.world Samples.wipes).
  pose (td := {| anchored := true; parts := Samples.workspace |}).
  pose (s1 := snd (mkdtemp w Samples.start)).
  pose (s2 := snd (convert_body w (convert_with_libreoffice w)
                     (Samples.upload "test.doc") ".doc" ".docx" "docx" td s1)).
  exact (f_equal fst
           (teardown_without_workspace w (convert_with_libreoffice w)
              (Samples.upload "test.doc") Samples.start s1 s2 td ".docx" "docx"
              (HTTPException 500 conversion_failed_detail)
              eq_refl eq_refl eq_refl eq_refl eq_refl)).
Defined.

Lemma for_each_unlink_frame (w : World) (td : Path) (q : list string)
    (ks : list string) :
  diverges (resolve w td) q = true ->
  forall (s s' : State) (r : Result unit),
    for_each (List.map (child td) ks) (unlink w) s = (r, s') ->
    lookup_node (fs s') q = lookup_node (fs s) q.
Proof.
  intros D. induction ks as [|k ks IH]; intros s s' r; simpl.
  - by intros [= <- <-].
  - unfold bind. destruct (unlink w (child td k) s) as [[[]|e] s1] eqn:E.
    + apply unlink_inv in E as (_ & t' & -> & R). intros H.
      rewrite (IH _ _ _ H). simpl. rewrite resolve_child in R.
      eapply remove_entry_frame; [exact R|]. by apply diverges_snoc.
    + apply unlink_inv in E as (_ & _ & ->). by intros [= <- <-].
Qed.

(** X12. The teardown touches the workspace only: whether it goes through or
    raises half-way, every path that parts ways with the path of the
    workspace holds afterwards what it held before. *)
Theorem teardown_touches_only_workspace (w : World) (td : Path) (s s' : State)
    (r : Result unit) (q : list string) :
  cleanup w td s = (r, s') ->
  diverges (resolve w td) q = true ->
  lookup_node (fs s') q = lookup_node (fs s) q.
Proof.
  intros H D. unfold cleanup, bind in H.
  assert (exists ks, glob_star w td s = (Ok (List.map (child td) ks), s)) as [ks G].
  { destruct (lookup_node (fs s) (resolve w td)) as [[x|m]|] eqn:L.
    - exists []. unfold glob_star. by rewrite L.
    - eexists. by apply glob_star_dir.
    - exists []. unfold glob_star. by rewrite L. }
  rewrite G in H.
  destruct (for_each _ (unlink w) s) as [[[]|e] s1] eqn:E.
  - rewrite <- (for_each_unlink_frame w td q ks D _ _ _ E).
    apply rmdir_inv in H as [_ H]. destruct r as [[]|e].
    + destruct H as (t' & -> & R). simpl. by eapply remove_entry_frame.
    + by destruct H as [_ ->].
  - injection H as _ <-. by eapply for_each_unlink_frame.
Qed.

Lemma teardown_touches_only_workspace_witness :
  lookup_node
    (fs (snd (cleanup (Samples.world Samples.idles)
                {| anchored := true; parts := Samples.workspace |}
                (snd (mkdtemp (Samples.world Samples.idles)
                        {| fs := Samples.disk_with_output; console := [] |})))))
    ["tmp"; "out"; "test.docx"]
  = Some (File [Byte.x50; Byte.x4b]).
Proof.
  rewrite (teardown_touches_only_workspace (Samples.world Samples.idles)
             {| anchored := true; parts := Samples.workspace |}
             (snd (mkdtemp (Samples.world Samples.idles)
                     {| fs := Samples.disk_with_output; console := [] |}))
             _ _ ["tmp"; "out"; "test.docx"] (surjective_pairing _) eq_refl).
  vm_compute. reflexivity.
Defined.
